(** * StatusWatch: outage reports, status classification and dashboards

    A shallow embedding of the repository's client scripts
    (service-detail.js, dashboard.js), of its PostgreSQL schema
    (database_schema_optimized.sql) and, where the server routes are not
    among the sources, of the Outage Status Engine as the specification
    words it.  Definitions come first, the theorems follow. *)

From Stdlib Require Import ZArith String List Bool Lia Sorting.Sorted Permutation.
From Stdlib Require Import QArith.
From stdpp Require Import base decidable option list gmap strings sorting.
Import ListNotations.

Local Open Scope Z_scope.

(* ===================================================================== *)
(** * The client scripts *)
(* ===================================================================== *)

Module JS.

(** ** Dates

    A JavaScript [Date] object holds a time value: an integral number of
    milliseconds since the epoch, or NaN (an "Invalid Date").  Time values
    lie within 8.64e15 ms of the epoch, far inside the range where doubles
    are exact integers, so [Z] arithmetic is the arithmetic of the script. *)

Inductive Date : Type :=
| TimeValue (t : Z)
| InvalidDate.

Definition maxTime : Z := 8640000000000000.

(** [new Date(v)] for a finite integral number [v]: the abstract operation
    TimeClip. *)
Definition TimeClip (v : Z) : Date :=
  if Z.abs v <=? maxTime then TimeValue v else InvalidDate.

(** [a >= b] on two Date objects: both are converted to their time values
    and a comparison with NaN is false. *)
Definition Date_ge (a b : Date) : bool :=
  match a, b with
  | TimeValue x, TimeValue y => y <=? x
  | _, _ => false
  end.

(** ** service-detail.js *)

(** A report as the detail page reads it from [/api/reports/<id>].  The
    field [timestamp] stands for [new Date(r.timestamp)]: the time value
    the transmitted text parses to, or [InvalidDate] when it does not
    parse. *)
Record report : Type := {
  timestamp : Date;
  location : option string;
  description : option string
}.

(** [const oneHourAgo = new Date(now - 60 * 60 * 1000);] where [now] is the
    time value of [new Date()]. *)
Definition oneHourAgo (now : Z) : Date := TimeClip (now - 60 * 60 * 1000).

(** [const sixHoursAgo = new Date(now - 6 * 60 * 60 * 1000);] *)
Definition sixHoursAgo (now : Z) : Date := TimeClip (now - 6 * 60 * 60 * 1000).

(** [reports.filter(r => new Date(r.timestamp) >= oneHourAgo).length] *)
Definition lastHour (reports : list report) (now : Z) : nat :=
  length (List.filter (fun r => Date_ge (timestamp r) (oneHourAgo now)) reports).

(** [reports.filter(r => new Date(r.timestamp) >= sixHoursAgo).length] *)
Definition last6Hours (reports : list report) (now : Z) : nat :=
  length (List.filter (fun r => Date_ge (timestamp r) (sixHoursAgo now)) reports).

(** [reports.length]: the response of [?hours=24] is counted as it is. *)
Definition last24Hours (reports : list report) : nat := length reports.

(** The three counters of the page ([lastHourCount], [last6HourCount],
    [last24HourCount]). *)
Record statistics : Type := {
  lastHourCount : nat;
  last6HourCount : nat;
  last24HourCount : nat
}.

(** [loadStatistics]: [response] is the parsed body of
    [/api/reports/<id>?hours=24], or [None] when the request or the parse
    throws; the [catch] branch only logs, so the page keeps its counters. *)
Definition loadStatistics (page : statistics) (response : option (list report))
    (now : Z) : statistics :=
  match response with
  | None => page
  | Some reports =>
      {| lastHourCount := lastHour reports now;
         last6HourCount := last6Hours reports now;
         last24HourCount := last24Hours reports |}
  end.

(** [Array.prototype.slice(0, n)] for a count [n]. *)
Definition slice0 {A : Type} (n : nat) (a : list A) : list A := firstn n a.

(** [updateRecentReports(reports.slice(0, 10))]: the reports handed to the
    list of recent reports by [loadReports]. *)
Definition recentReports {A : Type} (reports : list A) : list A := slice0 10 reports.

(** ** dashboard.js *)

(** The JSON values a field of a service object can hold (numbers of the
    API are integers). *)
Inductive JSValue : Type :=
| JSUndefined
| JSNull
| JSBoolean (b : bool)
| JSNumber (n : Z)
| JSString (s : string).

(** [v === 'literal']: strict equality with a string literal. *)
Definition strict_equals (v : JSValue) (literal : string) : bool :=
  match v with
  | JSString s => String.eqb s literal
  | _ => false
  end.

(** A service object of [/api/services]. *)
Record service : Type := {
  id : JSValue;
  status : JSValue;
  recent_reports : JSValue;
  response_time : JSValue
}.

(** The three locals of the "Update status text" block of
    [refreshDashboard]. *)
Record statusText : Type := {
  statusIcon : string;
  statusClass : string;
  statusLabel : string
}.

Definition refreshDashboard_statusText (s : service) : statusText :=
  let operational :=
    {| statusIcon := "check"; statusClass := "text-success";
       statusLabel := "Operational" |} in
  if strict_equals (status s) "issues" then
    {| statusIcon := "alert-triangle"; statusClass := "text-warning";
       statusLabel := "Issues" |}
  else if strict_equals (status s) "down" then
    {| statusIcon := "x"; statusClass := "text-danger";
       statusLabel := "Down" |}
  else operational.

Definition dquote : string := String (Ascii.ascii_of_nat 34) EmptyString.

(** The template literal assigned to [statusText.innerHTML]. *)
Definition statusText_innerHTML (t : statusText) : string :=
  ("<i data-feather=" ++ dquote ++ statusIcon t ++ dquote ++
   " class=" ++ dquote ++ statusClass t ++ dquote ++ "></i> " ++ statusLabel t)%string.

(** The elements of a service card that [refreshDashboard] looks up; an
    element the card lacks is [None] and is skipped by its [if] guard. *)
Record card : Type := {
  statusText_element : option string
}.

(** [if (statusText) { ... statusText.innerHTML = ... }] *)
Definition refreshDashboard_card (s : service) (c : card) : card :=
  match statusText_element c with
  | None => c
  | Some _ =>
      {| statusText_element :=
           Some (statusText_innerHTML (refreshDashboard_statusText s)) |}
  end.

End JS.

(* ===================================================================== *)
(** * The database schema *)
(* ===================================================================== *)

Module Schema.

(** [TIMESTAMP WITH TIME ZONE]: milliseconds since the epoch. *)
Definition timestamptz : Type := Z.

(** ** [CREATE TABLE services]

    The primary key [id] is the key of the table (a [gmap]).  A column
    without [NOT NULL] and without a [DEFAULT] is an [option]; a column
    with a [DEFAULT] holds a value, because the statements below never
    write NULL into it. *)
Module Services.
Record row : Type := {
  type_id : Z;
  subtype_id : option Z;
  name : string;
  description : option string;
  url : option string;
  company : option string;
  logo_url : option string;
  icon_path : option string;
  current_status : string;
  last_checked : option timestamptz;
  response_time : option Z;
  is_active : bool;
  priority : Z;
  created_at : timestamptz;
  updated_at : timestamptz
}.

(** [INSERT INTO services (type_id, name, url) VALUES (...)]: every other
    column takes its [DEFAULT] (NULL where the table declares none). *)
Definition inserted (now : timestamptz) (ty : Z) (nm : string) (u : option string) : row :=
  {| type_id := ty; subtype_id := None; name := nm; description := None;
     url := u; company := None; logo_url := None; icon_path := None;
     current_status := "up";
     last_checked := None; response_time := None;
     is_active := true; priority := 1;
     created_at := now; updated_at := now |}.

(** [UPDATE services SET current_status = st]; the trigger
    [update_services_updated_at] then runs [update_updated_at()], which
    sets [NEW.updated_at = CURRENT_TIMESTAMP]. *)
Definition set_current_status (now : timestamptz) (st : string) (r : row) : row :=
  {| type_id := type_id r; subtype_id := subtype_id r; name := name r;
     description := description r; url := url r; company := company r;
     logo_url := logo_url r; icon_path := icon_path r;
     current_status := st;
     last_checked := last_checked r; response_time := response_time r;
     is_active := is_active r; priority := priority r;
     created_at := created_at r; updated_at := now |}.
End Services.

(** ** [CREATE TABLE outage_reports] *)
Module OutageReports.
Record row : Type := {
  id : Z;
  service_id : Z;
  user_id : option Z;
  type : string;
  title : option string;
  description : option string;
  country : option string;
  region : option string;
  city : option string;
  latitude : option Z;    (* DECIMAL(10, 8), in units of 1e-8 degree *)
  longitude : option Z;   (* DECIMAL(11, 8), in units of 1e-8 degree *)
  user_ip : option string;
  user_agent : option string;
  source : option string;
  severity : string;
  status : string;
  resolved_at : option timestamptz;
  created_at : timestamptz;
  updated_at : timestamptz
}.

(** The columns an [INSERT INTO outage_reports] supplies; [type],
    [severity], [status], [created_at] and [updated_at] are left to their
    [DEFAULT]s and [resolved_at] to NULL. *)
Record values : Type := {
  v_service_id : Z;
  v_user_id : option Z;
  v_title : option string;
  v_description : option string;
  v_country : option string;
  v_region : option string;
  v_city : option string;
  v_latitude : option Z;
  v_longitude : option Z;
  v_user_ip : option string;
  v_user_agent : option string;
  v_source : option string
}.

Definition inserted (now : timestamptz) (key : Z) (v : values) : row :=
  {| id := key; service_id := v_service_id v; user_id := v_user_id v;
     type := "user_report"; title := v_title v; description := v_description v;
     country := v_country v; region := v_region v; city := v_city v;
     latitude := v_latitude v; longitude := v_longitude v;
     user_ip := v_user_ip v; user_agent := v_user_agent v; source := v_source v;
     severity := "medium"; status := "open"; resolved_at := None;
     created_at := now; updated_at := now |}.

(** The row with [user_id] and [updated_at] replaced. *)
Definition with_user_id_updated_at (u : option Z) (t : timestamptz) (r : row) : row :=
  {| id := id r; service_id := service_id r; user_id := u;
     type := type r; title := title r; description := description r;
     country := country r; region := region r; city := city r;
     latitude := latitude r; longitude := longitude r;
     user_ip := user_ip r; user_agent := user_agent r; source := source r;
     severity := severity r; status := status r; resolved_at := resolved_at r;
     created_at := created_at r; updated_at := t |}.

(** The referential action of [user_id ... REFERENCES users(id) ON DELETE
    SET NULL] on one row when user [u] is deleted: an update of the row,
    so the trigger [update_outage_reports_updated_at] sets
    [NEW.updated_at = CURRENT_TIMESTAMP]. *)
Definition on_delete_user (now : timestamptz) (u : Z) (r : row) : row :=
  if decide (user_id r = Some u) then with_user_id_updated_at None now r else r.

(** The row an [UPDATE outage_reports SET ...] stores when its [SET]
    clause gives the row [new]: the trigger
    [update_outage_reports_updated_at] runs before the update and
    overrides [NEW.updated_at]. *)
Definition updated (now : timestamptz) (new : row) : row :=
  with_user_id_updated_at (user_id new) now new.

(** [UPDATE outage_reports SET ... WHERE id = key] on one row. *)
Definition on_update (now : timestamptz) (key : Z) (new : row) (r : row) : row :=
  if decide (id r = key) then updated now new else r.
End OutageReports.

(** ** The database

    [users] and [service_types] are kept by their primary keys, the only
    columns a foreign key of the two tables above refers to.  The tables
    [comments], [user_favorites], [service_channels], [service_subtypes]
    and [notification_channels] refer to these tables and are referred to
    by none of their columns; they are left out, and so are the checks of
    column types and lengths: what the database accepts on the three
    tables is accepted here, with the same result. *)
Record db : Type := {
  users : gset Z;
  users_id_seq : Z;
  service_types : gset Z;
  services : gmap Z Services.row;
  services_id_seq : Z;
  outage_reports : list OutageReports.row;
  outage_reports_id_seq : Z
}.

(** The database after the script has run: the ten rows of
    [INSERT INTO service_types] hold the keys 1 to 10. *)
Definition initial : db :=
  {| users := ∅; users_id_seq := 1;
     service_types := list_to_set [1; 2; 3; 4; 5; 6; 7; 8; 9; 10];
     services := ∅; services_id_seq := 1;
     outage_reports := []; outage_reports_id_seq := 1 |}.

(** A nullable foreign key into [users]: NULL, or the key of a user. *)
Definition references_user (d : db) (u : option Z) : bool :=
  match u with
  | None => true
  | Some key => bool_decide (key ∈ users d)
  end.

(** The primary keys of the stored reports. *)
Definition report_keys (d : db) : list Z := OutageReports.id <$> outage_reports d.

(** The row statements on the three tables that touch stored reports or
    the rows they refer to.  The inserts take [id], [created_at] and
    [updated_at] from the columns' [DEFAULT]s.
    [UpdateOutageReport key new] is [UPDATE outage_reports SET ... WHERE
    id = key] with a [SET] clause that gives the row [new] (any column,
    the key included); [DeleteOutageReport key] is [DELETE FROM
    outage_reports WHERE id = key].  An [UPDATE] of a user or a service
    is left out: it changes no report, since the foreign keys of
    [outage_reports] have no [ON UPDATE] action and a key in use cannot
    be changed. *)
Inductive statement : Type :=
| InsertUser
| InsertService (ty : Z) (nm : string) (u : option string)
| InsertOutageReport (v : OutageReports.values)
| DeleteUser (key : Z)
| DeleteService (key : Z)
| UpdateOutageReport (key : Z) (new : OutageReports.row)
| DeleteOutageReport (key : Z).

(** [exec now s d]: the database after statement [s] at
    [CURRENT_TIMESTAMP = now], or [None] when a constraint rejects it.
    - [services.type_id] must name a service type;
    - [outage_reports.service_id] must name a service, and [user_id],
      when not NULL, a user, on insert and on update;
    - [outage_reports.id] is the primary key: an insert or update that
      would store a key twice is rejected;
    - deleting a user sets [user_id] to NULL in that user's reports
      ([ON DELETE SET NULL]);
    - deleting a service deletes its reports ([ON DELETE CASCADE]; the
      admin page warns: "This will also delete all associated reports");
    - an update of a report stores the new row with [updated_at] set by
      the trigger; an update or deletion that matches no row changes
      nothing. *)
Definition exec (now : timestamptz) (s : statement) (d : db) : option db :=
  match s with
  | InsertUser =>
      Some {| users := {[ users_id_seq d ]} ∪ users d;
              users_id_seq := users_id_seq d + 1;
              service_types := service_types d;
              services := services d; services_id_seq := services_id_seq d;
              outage_reports := outage_reports d;
              outage_reports_id_seq := outage_reports_id_seq d |}
  | InsertService ty nm u =>
      if decide (ty ∈ service_types d) then
        Some {| users := users d; users_id_seq := users_id_seq d;
                service_types := service_types d;
                services := <[ services_id_seq d := Services.inserted now ty nm u ]> (services d);
                services_id_seq := services_id_seq d + 1;
                outage_reports := outage_reports d;
                outage_reports_id_seq := outage_reports_id_seq d |}
      else None
  | InsertOutageReport v =>
      if bool_decide (is_Some (services d !! OutageReports.v_service_id v))
         && references_user d (OutageReports.v_user_id v)
         && bool_decide (outage_reports_id_seq d ∉ report_keys d) then
        Some {| users := users d; users_id_seq := users_id_seq d;
                service_types := service_types d;
                services := services d; services_id_seq := services_id_seq d;
                outage_reports :=
                  outage_reports d ++ [OutageReports.inserted now (outage_reports_id_seq d) v];
                outage_reports_id_seq := outage_reports_id_seq d + 1 |}
      else None
  | DeleteUser key =>
      Some {| users := users d ∖ {[ key ]}; users_id_seq := users_id_seq d;
              service_types := service_types d;
              services := services d; services_id_seq := services_id_seq d;
              outage_reports := OutageReports.on_delete_user now key <$> outage_reports d;
              outage_reports_id_seq := outage_reports_id_seq d |}
  | DeleteService key =>
      Some {| users := users d; users_id_seq := users_id_seq d;
              service_types := service_types d;
              services := delete key (services d); services_id_seq := services_id_seq d;
              outage_reports :=
                filter (λ r, OutageReports.service_id r ≠ key) (outage_reports d);
              outage_reports_id_seq := outage_reports_id_seq d |}
  | UpdateOutageReport key new =>
      if bool_decide (key ∈ report_keys d) then
        if bool_decide (is_Some (services d !! OutageReports.service_id new))
           && references_user d (OutageReports.user_id new)
           && bool_decide (OutageReports.id new = key
                           ∨ OutageReports.id new ∉ report_keys d) then
          Some {| users := users d; users_id_seq := users_id_seq d;
                  service_types := service_types d;
                  services := services d; services_id_seq := services_id_seq d;
                  outage_reports :=
                    OutageReports.on_update now key new <$> outage_reports d;
                  outage_reports_id_seq := outage_reports_id_seq d |}
        else None
      else Some d
  | DeleteOutageReport key =>
      Some {| users := users d; users_id_seq := users_id_seq d;
              service_types := service_types d;
              services := services d; services_id_seq := services_id_seq d;
              outage_reports := filter (λ r, OutageReports.id r ≠ key) (outage_reports d);
              outage_reports_id_seq := outage_reports_id_seq d |}
  end.

(** The database a rejected statement leaves: its changes are undone,
    but the value an [INSERT] drew from the sequence of its table for the
    [DEFAULT] of [id] is not given back. *)
Definition rejected (s : statement) (d : db) : db :=
  match s with
  | InsertService _ _ _ =>
      {| users := users d; users_id_seq := users_id_seq d;
         service_types := service_types d;
         services := services d; services_id_seq := services_id_seq d + 1;
         outage_reports := outage_reports d;
         outage_reports_id_seq := outage_reports_id_seq d |}
  | InsertOutageReport _ =>
      {| users := users d; users_id_seq := users_id_seq d;
         service_types := service_types d;
         services := services d; services_id_seq := services_id_seq d;
         outage_reports := outage_reports d;
         outage_reports_id_seq := outage_reports_id_seq d + 1 |}
  | _ => d
  end.

(** The statements of a list in turn, each at its own
    [CURRENT_TIMESTAMP]; [None] as soon as one is rejected. *)
Fixpoint exec_list (l : list (timestamptz * statement)) (d : db) : option db :=
  match l with
  | [] => Some d
  | (now, s) :: rest =>
      match exec now s d with
      | Some d' => exec_list rest d'
      | None => None
      end
  end.

End Schema.

(* ===================================================================== *)
(** * The Outage Status Engine *)
(* ===================================================================== *)

(** The server routes that classify a service, cache its status and list
    its reports are not among the sources; this module words them after the
    specification, over the tables of the schema above. *)
Module Engine.

Import Schema.

(** Modelled from the spec: the status enum of sections 3 and 6; the
    server's routes are missing. *)
Inductive Status : Type := up | issues | down.

(** Modelled from the spec: the enum values as the events and the column
    [current_status] spell them. *)
Definition status_name (s : Status) : string :=
  match s with
  | up => "up"
  | issues => "issues"
  | down => "down"
  end.

(** One hour, in the milliseconds of [timestamptz]. *)
Definition hour : Z := 60 * 60 * 1000.

(** Modelled from the spec: the trailing window of [hours] hours of section
    4.2 (the classifier is missing).  The window is half-open and a
    timestamp exactly [hours] before [now] is excluded, so its closed end
    is [now]. *)
Definition in_window (hours now t : Z) : bool :=
  (now - hours * hour <? t) && (t <=? now).

(** Modelled from the spec: the counts over the three fixed windows of
    section 4.2. *)
Record WindowCounts : Type := {
  lastHour : nat;
  last6Hours : nat;
  last24Hours : nat
}.

(** Modelled from the spec: "given now and a service's report timestamps,
    compute counts over three fixed trailing windows" (the classifier is
    missing). *)
Definition windowCounts (now : Z) (timestamps : list Z) : WindowCounts :=
  {| lastHour := length (List.filter (in_window 1 now) timestamps);
     last6Hours := length (List.filter (in_window 6 now) timestamps);
     last24Hours := length (List.filter (in_window 24 now) timestamps) |}.

(** Modelled from the spec: the Status Classifier of section 4.2 (missing
    from the sources): count < 2 is [up], 2 to 4 is [issues], 5 or more is
    [down], on the 1-hour count. *)
Definition classify (w : WindowCounts) : Status :=
  if (lastHour w <? 2)%nat then up
  else if (lastHour w <=? 4)%nat then issues
  else down.

(** The creation timestamps of the reports of service [sid]. *)
Definition report_timestamps (sid : Z) (d : db) : list Z :=
  OutageReports.created_at <$>
    filter (λ r, OutageReports.service_id r = sid) (outage_reports d).

(** Modelled from the spec: [classify(windowCounts(service, now))] of
    section 3. *)
Definition next_status (now sid : Z) (d : db) : Status :=
  classify (windowCounts now (report_timestamps sid d)).

(** Modelled from the spec: the transition descriptor of sections 4.3 and
    6, [{serviceId, oldStatus, newStatus}], with the transition timestamp. *)
Record Transition : Type := {
  serviceId : Z;
  oldStatus : string;
  newStatus : string;
  transitionTime : Z
}.

(** Modelled from the spec: the engine instance of section 9: the store
    and the transition events handed to the Broadcaster so far, oldest
    first. *)
Record engine : Type := {
  store : db;
  emitted : list Transition
}.

(** Modelled from the spec: "set current = next" of section 4.3, as the
    statement [UPDATE services SET current_status = st WHERE id = sid] (the
    code that writes the column is missing); the schema's trigger stamps
    [updated_at], which records the time of the transition. *)
Definition set_current_status (now sid : Z) (st : string) (d : db) : db :=
  {| users := users d; users_id_seq := users_id_seq d;
     service_types := service_types d;
     services := alter (Services.set_current_status now st) sid (services d);
     services_id_seq := services_id_seq d;
     outage_reports := outage_reports d;
     outage_reports_id_seq := outage_reports_id_seq d |}.

(** Modelled from the spec: the transition function of section 4.3 (the
    Status Cache is missing): "next = classify(...); if next != current,
    set current = next, record the transition timestamp, and hand off a
    transition descriptor to the Broadcaster". *)
Definition reclassify (now sid : Z) (e : engine) : engine :=
  match services (store e) !! sid with
  | None => e
  | Some r =>
      let next := status_name (next_status now sid (store e)) in
      if String.eqb next (Services.current_status r) then e
      else
        {| store := set_current_status now sid next (store e);
           emitted := emitted e ++
             [ {| serviceId := sid; oldStatus := Services.current_status r;
                  newStatus := next; transitionTime := now |} ] |}
  end.

(** Modelled from the spec: what reaches the engine (its routes and its
    timer are missing): a statement on the store, or the periodic tick for
    one service. *)
Inductive input : Type :=
| Statement (s : statement)
| Tick (sid : Z).

(** Modelled from the spec: section 4.1, "on success, persists the report
    with a server-assigned timestamp and triggers reclassification of the
    owning service", and section 4.2, the classifier "is also invoked on a
    periodic tick" (the routes are missing).  Reclassification runs with
    the insert, the synchronous one of the two schedules section 4.1
    allows.  [None] is a rejected statement. *)
Definition handle (now : Z) (i : input) (e : engine) : option engine :=
  match i with
  | Tick sid => Some (reclassify now sid e)
  | Statement s =>
      match exec now s (store e) with
      | None => None
      | Some d =>
          let e' := {| store := d; emitted := emitted e |} in
          match s with
          | InsertOutageReport v =>
              Some (reclassify now (OutageReports.v_service_id v) e')
          | _ => Some e'
          end
      end
  end.

Definition initial : engine := {| store := Schema.initial; emitted := [] |}.

(** Modelled from the spec: the cached status of service [sid], the
    column [current_status] that section 4.3 has loaded at startup. *)
Definition current (sid : Z) (e : engine) : option string :=
  Services.current_status <$> (services (store e) !! sid).

(** The states the engine can be in: those [handle] leads to from
    [initial]. *)
Inductive reachable : engine → Prop :=
| reachable_initial : reachable initial
| reachable_handle now i e e' :
    reachable e → handle now i e = Some e' → reachable e'.

(** [handle] along a list of timed inputs; a rejected input leaves the
    engine as it is. *)
Fixpoint run (inputs : list (Z * input)) (e : engine) : engine :=
  match inputs with
  | [] => e
  | (now, i) :: rest =>
      run rest (match handle now i e with Some e' => e' | None => e end)
  end.

(** Modelled from the spec: "newest first" of [list reports], section 6. *)
Definition newest_first (r1 r2 : OutageReports.row) : Prop :=
  OutageReports.created_at r2 ≤ OutageReports.created_at r1.

#[global] Instance newest_first_dec : RelDecision newest_first.
Proof. intros r1 r2. unfold newest_first. apply _. Defined.

(** Modelled from the spec: the optional [hoursLookback] of [list
    reports]; without it every report of the service is listed. *)
Definition in_lookback (now : Z) (hoursLookback : option Z) (t : Z) : bool :=
  match hoursLookback with
  | None => true
  | Some h => in_window h now t
  end.

(** Modelled from the spec: the reports [list reports] is about, those of
    service [sid] that the lookback selects, in insertion order. *)
Definition selected_reports (now sid : Z) (hoursLookback : option Z) (d : db)
    : list OutageReports.row :=
  filter (λ r, OutageReports.service_id r = sid
               ∧ in_lookback now hoursLookback (OutageReports.created_at r) = true)
         (outage_reports d).

(** Modelled from the spec: [list reports] of section 6, "input
    {serviceId, hoursLookback?}, ordered sequence (newest first) of report
    records" (the route [/api/reports/<id>] is missing). *)
Definition list_reports (now sid : Z) (hoursLookback : option Z) (d : db)
    : list OutageReports.row :=
  merge_sort newest_first (selected_reports now sid hoursLookback d).

(** ** The scenario of section 8 *)

Definition report_from (sid : Z) (origin : string) : OutageReports.values :=
  {| OutageReports.v_service_id := sid; OutageReports.v_user_id := None;
     OutageReports.v_title := None; OutageReports.v_description := None;
     OutageReports.v_country := None; OutageReports.v_region := None;
     OutageReports.v_city := None;
     OutageReports.v_latitude := None; OutageReports.v_longitude := None;
     OutageReports.v_user_ip := Some origin;
     OutageReports.v_user_agent := None; OutageReports.v_source := None |}.

Definition t0 : Z := 1700000000000.

(** A service, created at [t0]: it gets the key 1. *)
Definition one_service : engine :=
  run [(t0, Statement (InsertService 1 "Example" (Some "https://example.com")))] initial.

(** Five reports within one minute, from five origins. *)
Definition five_reports : list (Z * input) :=
  [ (t0 + 10000, Statement (InsertOutageReport (report_from 1 "198.51.100.1")));
    (t0 + 20000, Statement (InsertOutageReport (report_from 1 "198.51.100.2")));
    (t0 + 30000, Statement (InsertOutageReport (report_from 1 "198.51.100.3")));
    (t0 + 40000, Statement (InsertOutageReport (report_from 1 "198.51.100.4")));
    (t0 + 50000, Statement (InsertOutageReport (report_from 1 "198.51.100.5"))) ].

End Engine.

(* ===================================================================== *)
(** * Inputs and readings the statements use *)
(* ===================================================================== *)

(** A report of the detail page whose timestamp parses to [t]. *)
Definition report_at (t : Z) : JS.report :=
  {| JS.timestamp := JS.TimeValue t; JS.location := None; JS.description := None |}.

(** A service object of the dashboard with the given [status]. *)
Definition service_with_status (st : JS.JSValue) : JS.service :=
  {| JS.id := JS.JSNumber 1; JS.status := st;
     JS.recent_reports := JS.JSNumber 0; JS.response_time := JS.JSNull |}.

(** A reading of the three windows with [n] reports in the last hour. *)
Definition counts_with_last_hour (n : nat) : Engine.WindowCounts :=
  {| Engine.lastHour := n; Engine.last6Hours := n; Engine.last24Hours := n |}.

(** The 1-hour count as the specification words it: a report counts when
    [now - 1h < t < now]. *)
Definition lastHour_as_claimed (reports : list JS.report) (now : Z) : nat :=
  length (List.filter
            (λ r, match JS.timestamp r with
                  | JS.TimeValue t => (now - 60 * 60 * 1000 <? t) && (t <? now)
                  | JS.InvalidDate => false
                  end) reports).



(** A report on service [sid] filed by user [u]. *)
Definition report_by (sid : Z) (u : option Z) : Schema.OutageReports.values :=
  {| Schema.OutageReports.v_service_id := sid; Schema.OutageReports.v_user_id := u;
     Schema.OutageReports.v_title := Some "Login fails";
     Schema.OutageReports.v_description := Some "Cannot sign in";
     Schema.OutageReports.v_country := Some "MA"; Schema.OutageReports.v_region := None;
     Schema.OutageReports.v_city := Some "Rabat";
     Schema.OutageReports.v_latitude := Some 3402000000;
     Schema.OutageReports.v_longitude := Some (-684000000);
     Schema.OutageReports.v_user_ip := Some "198.51.100.7";
     Schema.OutageReports.v_user_agent := None; Schema.OutageReports.v_source := None |}.

(** A user (key 1), a service (key 1) and one report of that user on that
    service (key 1), stored at time 3000. *)
Definition db_with_report : Schema.db :=
  default Schema.initial
    (Schema.exec_list
       [ (1000, Schema.InsertUser);
         (2000, Schema.InsertService 1 "Example" (Some "https://example.com"));
         (3000, Schema.InsertOutageReport (report_by 1 (Some 1))) ]
       Schema.initial).



(** The three values of the status enum, as [current_status] holds
    them. *)
Definition valid_status (s : string) : Prop :=
  s = "up" ∨ s = "issues" ∨ s = "down".

(** Every service row holds a value of the enum, and its key was drawn
    from the sequence [services_id_seq]. *)
Definition services_invariant (d : Schema.db) : Prop :=
  ∀ sid r, Schema.services d !! sid = Some r →
    valid_status (Schema.Services.current_status r) ∧ sid < Schema.services_id_seq d.

(* ===================================================================== *)
(** * More of the client scripts *)
(* ===================================================================== *)

(** Strings of the scripts: a Rocq [string] lists the units of the text in
    order; [includes] and [split] only compare units, so nothing here
    depends on how a character is encoded. *)
Module Text.

(** [s.includes(searchString)]: [searchString] occurs in [s] at some
    position, the empty string at every position. *)
Fixpoint includes (s searchString : string) : bool :=
  String.prefix searchString s ||
  match s with
  | EmptyString => false
  | String _ rest => includes rest searchString
  end.

(** [s.split(separator)[0]] for a non-empty [separator]: the text before
    the first occurrence of the separator, all of [s] when there is none. *)
Fixpoint split_first (separator s : string) : string :=
  if String.prefix separator s then EmptyString
  else match s with
       | EmptyString => EmptyString
       | String c rest => String c (split_first separator rest)
       end.

End Text.

(** ** dashboard.js: search, counters, placeholder *)
Module Dashboard.

(** A [.service-item] element: its [data-service-name] attribute, absent
    or present, and the two style properties the search writes. *)
Record item : Type := {
  serviceName : option string;
  display : string;
  opacity : string
}.

(** [const serviceName = item.dataset.serviceName || ''] *)
Definition dataset_serviceName (it : item) : string := default EmptyString (serviceName it).

(** [const shouldShow = serviceName.includes(query) || query === '';] *)
Definition shouldShow (query : string) (it : item) : bool :=
  Text.includes (dataset_serviceName it) query || String.eqb query "".

(** The body of [serviceItems.forEach] in [performSearch], up to the timer
    it sets: a shown item gets [display = 'block'] and [opacity = '1'], a
    hidden one only [opacity = '0']. *)
Definition performSearch_item (query : string) (it : item) : item :=
  if shouldShow query it then
    {| serviceName := serviceName it; display := "block"; opacity := "1" |}
  else
    {| serviceName := serviceName it; display := display it; opacity := "0" |}.

(** The callback of [setTimeout(..., 300)]:
    [if (item.style.opacity === '0') item.style.display = 'none'] *)
Definition hideTimer (it : item) : item :=
  if String.eqb (opacity it) "0" then
    {| serviceName := serviceName it; display := "none"; opacity := opacity it |}
  else it.

(** [visibleCount] at the end of the loop. *)
Definition visibleCount (query : string) (items : list item) : nat :=
  length (List.filter (shouldShow query) items).

(** The grid: the items and the [#noResults] element: absent, or present,
    with the query that [performSearch] interpolated into its markup
    (as typed: the template literal does not escape it, so this is the
    query the element was made for, not the text it shows). *)
Record grid : Type := {
  items : list item;
  noResults : option string
}.

(** [performSearch(query)]: the loop over the items, the removal of an
    existing [#noResults] and its creation when
    [visibleCount === 0 && query !== '']. *)
Definition performSearch (query : string) (g : grid) : grid :=
  {| items := performSearch_item query <$> items g;
     noResults :=
       if (visibleCount query (items g) =? 0)%nat && negb (String.eqb query "")
       then Some query else None |}.

(** What happens to one item over time: a search runs, or one of the
    timers set for the item fires. *)
Inductive event : Type :=
| Search (query : string)
| TimerFires.

Definition item_event (e : event) (it : item) : item :=
  match e with
  | Search query => performSearch_item query it
  | TimerFires => hideTimer it
  end.

Definition item_events (es : list event) (it : item) : item :=
  fold_left (λ acc e, item_event e acc) es it.

(** The input handler of the minimal dashboard:
    [item.style.display = serviceName.includes(query) ? 'block' : 'none']
    with [serviceName = item.dataset.serviceName || '']. *)
Definition simpleSearch_display (query : string) (it : item) : string :=
  if Text.includes (dataset_serviceName it) query then "block" else "none".

(** [item.style.display = d] *)
Definition set_display (d : string) (it : item) : item :=
  {| serviceName := serviceName it; display := d; opacity := opacity it |}.

(** The input handler of the minimal dashboard on the items of the page:
    its [forEach] visits every item. *)
Definition simpleSearch (query : string) (items : list item) : list item :=
  (λ it, set_display (simpleSearch_display query it) it) <$> items.

(** The input handler of the first dashboard on the items of the page.
    It reads [item.dataset.serviceName] as it is, so on an item without
    the attribute [serviceName.includes] throws a TypeError, which ends
    the [forEach]: the items before that one have their display set, that
    item and all items after it are left as they are.  The result is the
    items after the handler, and whether it threw. *)
Fixpoint firstSearch (searchTerm : string) (items : list item) : list item * bool :=
  match items with
  | [] => ([], false)
  | it :: rest =>
      match serviceName it with
      | None => (it :: rest, true)
      | Some name =>
          let '(rest', threw) := firstSearch searchTerm rest in
          (set_display (if Text.includes name searchTerm then "block" else "none") it
             :: rest', threw)
      end
  end.

(** [placeholders] of [animateSearchPlaceholder]. *)
Definition placeholders : list string :=
  [ "Search for a service...";
    "Try " +:+ JS.dquote +:+ "Discord" +:+ JS.dquote +:+ ", " +:+ JS.dquote +:+ "Instagram"
      +:+ JS.dquote +:+ ", " +:+ JS.dquote +:+ "Gmail" +:+ JS.dquote +:+ "...";
    "Find your favorite services...";
    "Search 100+ monitored services..." ].

(** One run of the interval callback:
    [currentIndex = (currentIndex + 1) % placeholders.length]; the input
    then shows [placeholders[currentIndex]] ([None] would be
    [undefined]). *)
Definition nextIndex (currentIndex : nat) : nat :=
  ((currentIndex + 1) mod length placeholders)%nat.

(** The placeholder of the search box (when the page has one: without it
    [animateSearchPlaceholder] returns at once) after [ticks] runs of the
    interval callback.  The script writes it inside the callback only:
    before the first run the box shows [template], the [placeholder]
    attribute that the page's template gives the input. *)
Definition placeholder_after (template : string) (ticks : nat) : option string :=
  match ticks with
  | O => Some template
  | S _ => placeholders !! Nat.iter ticks nextIndex 0%nat
  end.

(** A [.wave] element: the tokens of its [classList]. *)
Definition classList : Type := list string.

(** [classList.contains(token)] *)
Definition contains (c : classList) (token : string) : bool :=
  bool_decide (token ∈ c).

Record statusCounts : Type := {
  upCount : nat;
  issuesCount : nat;
  downCount : nat
}.

(** The body of the loop of [updateStatusCounts]: the [if / else if]
    chain on the three status classes. *)
Definition count_wave (acc : statusCounts) (wave : classList) : statusCounts :=
  if contains wave "status-up" then
    {| upCount := S (upCount acc); issuesCount := issuesCount acc; downCount := downCount acc |}
  else if contains wave "status-issues" then
    {| upCount := upCount acc; issuesCount := S (issuesCount acc); downCount := downCount acc |}
  else if contains wave "status-down" then
    {| upCount := upCount acc; issuesCount := issuesCount acc; downCount := S (downCount acc) |}
  else acc.

(** [updateStatusCounts]: the three counters after the loop over
    [document.querySelectorAll('.wave')]. *)
Definition updateStatusCounts (waves : list classList) : statusCounts :=
  fold_left count_wave waves {| upCount := 0; issuesCount := 0; downCount := 0 |}.

End Dashboard.

(** The report's timestamp parsed to a time. *)
Definition parsed (r : JS.report) : bool :=
  match JS.timestamp r with
  | JS.TimeValue _ => true
  | JS.InvalidDate => false
  end.

(** The item is laid out: its [display] is ['block']. *)
Definition displayed (it : Dashboard.item) : bool :=
  String.eqb (Dashboard.display it) "block".

(** A wave carries at least one of the three status classes. *)
Definition has_status_class (wave : Dashboard.classList) : bool :=
  Dashboard.contains wave "status-up"
  || Dashboard.contains wave "status-issues"
  || Dashboard.contains wave "status-down".

(** ** dashboard.js: the texts the socket handlers write *)
Module Sockets.

(** The separator of [textContent.split(' •')]: a space and the bullet
    U+2022. *)
Definition separator : string := " •".

(** [`${service.recent_reports} reports in last 24h`], followed by
    [` • ${Math.round(service.response_time)}ms response`] when
    [service.response_time] is truthy ([refreshDashboard] and the handler
    of [dashboard_refresh]).  [recent_reports] is the text the template
    prints for the count, [rounded] the text it prints for
    [Math.round(service.response_time)], or [None] when the response time
    is falsy. *)
Definition reportText (recent_reports : string) (rounded : option string) : string :=
  match rounded with
  | None => recent_reports +:+ " reports in last 24h"
  | Some ms => (recent_reports +:+ " reports in last 24h") +:+ (" • " +:+ ms +:+ "ms response")
  end.

(** The handler of [status_updates] on the text of [.card-text]:
    [const currentText = reportsCount.textContent.split(' •')[0]] and
    [reportsCount.textContent =
       `${currentText} • ${Math.round(update.response_time)}ms response`],
    both only when [update.response_time] is truthy ([rounded] is then the
    text printed for the rounded time). *)
Definition status_update_text (rounded : option string) (textContent : string) : string :=
  match rounded with
  | None => textContent
  | Some ms =>
      Text.split_first separator textContent +:+ (" • " +:+ ms +:+ "ms response")
  end.

End Sockets.

(** A text of ASCII characters only, as the template prints a number
    (digits, a sign, [NaN], an exponent). *)
Fixpoint ascii_only (s : string) : bool :=
  match s with
  | EmptyString => true
  | String c rest => (Ascii.N_of_ascii c <? 128)%N && ascii_only rest
  end.

(** ** admin.js *)
Module Admin.

(** The status badge of a table row: its [className] and [textContent]. *)
Record badge : Type := {
  className : string;
  textContent : string
}.

(** The handler of [new_report] on the badge of the service's row: the
    chain [=== 'up'], [=== 'issues'], [else]. *)
Definition new_report_badge (new_status : JS.JSValue) : badge :=
  if JS.strict_equals new_status "up" then
    {| className := "badge bg-success"; textContent := "Operational" |}
  else if JS.strict_equals new_status "issues" then
    {| className := "badge bg-warning"; textContent := "Issues" |}
  else
    {| className := "badge bg-danger"; textContent := "Down" |}.

(** The [pagination] object of [/api/services]. *)
Record pagination : Type := {
  pages : Z;
  page : Z;
  has_prev : bool;
  has_next : bool
}.

(** The [<li>] elements [renderPagination] writes, in order. *)
Inductive li : Type :=
| PreviousLink (target : Z)
| PreviousDisabled
| PageActive (i : Z)
| PageLink (i : Z)
| NextLink (target : Z)
| NextDisabled.

(** [const startPage = Math.max(1, currentPage - 2);] *)
Definition startPage (p : pagination) : Z := Z.max 1 (page p - 2).

(** [const endPage = Math.min(totalPages, currentPage + 2);] *)
Definition endPage (p : pagination) : Z := Z.min (pages p) (page p + 2).

(** The values of [i] in [for (let i = startPage; i <= endPage; i++)]. *)
Definition pageNumbers (p : pagination) : list Z :=
  seqZ (startPage p) (endPage p - startPage p + 1).

(** The item of the loop for page [i]. *)
Definition pageItem (p : pagination) (i : Z) : li :=
  if bool_decide (i = page p) then PageActive i else PageLink i.


(** The pages the items of a rendering belong to that are marked
    [active]. *)
Definition activePages (items : list li) : list Z :=
  omap (λ x, match x with PageActive i => Some i | _ => None end) items.

(** The pages a rendering offers, the active one included. *)
Definition listedPages (items : list li) : list Z :=
  omap (λ x, match x with PageActive i | PageLink i => Some i | _ => None end) items.

End Admin.

(** ** The detail page: map markers and the captured location *)
Module Detail.

(** A coordinate of a report object or of the page: [null] (or absent), or
    a number of degrees. *)
Inductive coordinate : Type :=
| NoCoordinate
| Degrees (q : Q).

(** The truth value of a coordinate in a condition: [null] is falsy, and
    so is the number 0. *)
Definition truthy (c : coordinate) : bool :=
  match c with
  | NoCoordinate => false
  | Degrees q => negb (Qeq_bool q 0)
  end.

(** The fields of a report object the map reads. *)
Record report : Type := {
  latitude : coordinate;
  longitude : coordinate;
  location : option string;
  description : option string
}.

(** The layers of the Leaflet map: the tile layer, or a marker at a
    position. *)
Inductive layer : Type :=
| TileLayer
| Marker (lat lon : Q).

Definition isMarker (l : layer) : bool :=
  match l with
  | Marker _ _ => true
  | TileLayer => false
  end.

(** The marker [loadReports] adds for a report, if any:
    [if (report.latitude && report.longitude) L.marker([...]).addTo(map)]. *)
Definition markerFor (r : report) : option layer :=
  match latitude r, longitude r with
  | Degrees lat, Degrees lon =>
      if truthy (latitude r) && truthy (longitude r) then Some (Marker lat lon) else None
  | _, _ => None
  end.

(** The map after [loadReports] has read [reports]: every marker layer is
    removed ([map.eachLayer]), then the markers of the reports are added. *)
Definition loadReports_map (reports : list report) (map : list layer) : list layer :=
  List.filter (λ l, negb (isMarker l)) map ++ omap markerFor reports.

(** The two globals [userLatitude] and [userLongitude]. *)
Record captured : Type := {
  userLatitude : coordinate;
  userLongitude : coordinate
}.

(** What changes the globals: the success callback of
    [getCurrentPosition] with [position.coords], its error callback, and
    the outcome of a submission ([response.ok], or an error response or a
    failed request). *)
Inductive happening : Type :=
| PositionFound (lat lon : Q)
| PositionError
| SubmitOk
| SubmitFailed.

Definition happens (h : happening) (c : captured) : captured :=
  match h with
  | PositionFound lat lon =>
      {| userLatitude := Degrees lat; userLongitude := Degrees lon |}
  | PositionError => c
  | SubmitOk => {| userLatitude := NoCoordinate; userLongitude := NoCoordinate |}
  | SubmitFailed => c
  end.

(** [let userLatitude = null; let userLongitude = null;] *)
Definition page_loaded : captured :=
  {| userLatitude := NoCoordinate; userLongitude := NoCoordinate |}.

Definition after (hs : list happening) : captured :=
  fold_left (λ c h, happens h c) hs page_loaded.

(** The coordinates of [formData] in [handleReportSubmit]:
    [latitude: userLatitude, longitude: userLongitude]. *)
Definition formData_coordinates (c : captured) : coordinate * coordinate :=
  (userLatitude c, userLongitude c).

End Detail.

(** The captured position is whole or absent: both coordinates, or
    neither. *)
Definition paired (c : Detail.captured) : Prop :=
  Detail.userLatitude c = Detail.NoCoordinate
  ↔ Detail.userLongitude c = Detail.NoCoordinate.

(** ** The databases the statements of the schema lead to *)

(** [db_at t d]: [d] results from the script's database through
    statements, accepted or rejected, each at a [CURRENT_TIMESTAMP] of
    its own (they need not be in order: it is the time at which the
    statement's transaction started); [t] is that of the last one. *)
Inductive db_at : Z → Schema.db → Prop :=
| db_at_initial t : db_at t Schema.initial
| db_at_exec t now s d d' :
    db_at t d → Schema.exec now s d = Some d' → db_at now d'
| db_at_rejected t now s d :
    db_at t d → Schema.exec now s d = None → db_at now (Schema.rejected s d).

(** Every foreign key of a stored report refers to a stored row. *)
Definition references_hold (d : Schema.db) : Prop :=
  ∀ r, r ∈ Schema.outage_reports d →
    is_Some (Schema.services d !! Schema.OutageReports.service_id r)
    ∧ ∀ u, Schema.OutageReports.user_id r = Some u → u ∈ Schema.users d.

(** The clock reading of the last statement of the list, [t] for the
    empty list. *)
Fixpoint end_time (t : Z) (l : list (Z * Schema.statement)) : Z :=
  match l with
  | [] => t
  | (now, _) :: rest => end_time now rest
  end.

(** The three statements that lead to [db_with_report]. *)
Definition report_statements : list (Z * Schema.statement) :=
  [ (1000, Schema.InsertUser);
    (2000, Schema.InsertService 1 "Example" (Some "https://example.com"));
    (3000, Schema.InsertOutageReport (report_by 1 (Some 1))) ].

(* ===================================================================== *)
(** * Theorems *)
(* ===================================================================== *)

(** ** The statistics of the detail page *)

Section filter_counts.
Context {A : Type}.
Implicit Types (p q : A → bool) (l : list A).

Lemma filter_length_mono p q l :
  (∀ x, p x = true → q x = true) →
  (length (List.filter p l) ≤ length (List.filter q l))%nat.
Proof.
  intros Hpq. induction l as [|x l IH]; simpl; [lia|].
  destruct (p x) eqn:Hp.
  - rewrite (Hpq x Hp). simpl. lia.
  - destruct (q x); simpl; lia.
Qed.

Lemma filter_length_le p l : (length (List.filter p l) ≤ length l)%nat.
Proof. induction l as [|x l IH]; simpl; [lia|]. destruct (p x); simpl; lia. Qed.

Lemma filter_ext_length p q l :
  (∀ x, p x = q x) → length (List.filter p l) = length (List.filter q l).
Proof. intros Hpq. f_equal. apply List.filter_ext. exact Hpq. Qed.
End filter_counts.

Lemma TimeClip_in_range v :
  Z.abs v ≤ JS.maxTime → JS.TimeClip v = JS.TimeValue v.
Proof. intros H. unfold JS.TimeClip. destruct (Z.leb_spec (Z.abs v) JS.maxTime); [done|lia]. Qed.

Lemma TimeClip_out_of_range v :
  JS.maxTime < Z.abs v → JS.TimeClip v = JS.InvalidDate.
Proof. intros H. unfold JS.TimeClip. destruct (Z.leb_spec (Z.abs v) JS.maxTime); [lia|done]. Qed.

Lemma Date_ge_TimeValue d y :
  JS.Date_ge d (JS.TimeValue y) = true ↔ ∃ t, d = JS.TimeValue t ∧ y ≤ t.
Proof.
  destruct d as [x|]; simpl.
  - rewrite Z.leb_le. split; [eauto|]. by intros (t & [= ->] & ?).
  - split; [done|]. by intros (t & ? & ?).
Qed.

Lemma Date_ge_InvalidDate d : JS.Date_ge d JS.InvalidDate = false.
Proof. by destruct d. Qed.

Example loadStatistics_three_reports :
  JS.loadStatistics (JS.Build_statistics 0 0 0)
    (Some [report_at 1699999999000; report_at 1699990000000; report_at 1699930000000])
    1700000000000
  = JS.Build_statistics 1 2 3.
Proof. vm_compute. reflexivity. Qed.

Example loadStatistics_unparsed_timestamp :
  JS.loadStatistics (JS.Build_statistics 0 0 0)
    (Some [ {| JS.timestamp := JS.InvalidDate; JS.location := None;
               JS.description := None |} ])
    1700000000000
  = JS.Build_statistics 0 0 1.
Proof. vm_compute. reflexivity. Qed.

Example loadStatistics_failed_request :
  JS.loadStatistics (JS.Build_statistics 4 5 6) None 1700000000000
  = JS.Build_statistics 4 5 6.
Proof. reflexivity. Qed.

(** A report of the last hour is a report of the last six hours, when the
    six-hour bound is a date at all. *)
Lemma oneHourAgo_sixHoursAgo now d :
  - JS.maxTime + 6 * 60 * 60 * 1000 ≤ now →
  JS.Date_ge d (JS.oneHourAgo now) = true →
  JS.Date_ge d (JS.sixHoursAgo now) = true.
Proof.
  intros Hnow. unfold JS.oneHourAgo, JS.sixHoursAgo.
  destruct (Z_le_gt_dec (Z.abs (now - 60 * 60 * 1000)) JS.maxTime) as [H1|H1].
  - rewrite (TimeClip_in_range _ H1), (TimeClip_in_range (now - 6 * 60 * 60 * 1000)) by lia.
    rewrite !Date_ge_TimeValue. intros (t & -> & ?). exists t. split; [done|lia].
  - rewrite TimeClip_out_of_range by lia. by rewrite Date_ge_InvalidDate.
Qed.

(** C2, as stated, fails: [loadStatistics] counts a report stamped exactly
    one hour before [now] (its test is [>=]), and one stamped after [now]
    (it has no upper bound), where the claimed window counts neither. *)
Lemma C2_boundary_report_is_counted :
  JS.lastHour [report_at (1700000000000 - 60 * 60 * 1000)] 1700000000000 = 1%nat
  ∧ lastHour_as_claimed [report_at (1700000000000 - 60 * 60 * 1000)] 1700000000000 = 0%nat
  ∧ JS.lastHour [report_at (1700000000000 + 5000)] 1700000000000 = 1%nat
  ∧ lastHour_as_claimed [report_at (1700000000000 + 5000)] 1700000000000 = 0%nat.
Proof. repeat split; vm_compute; reflexivity. Qed.

(** C2, amended: for every list of reports and every clock reading [now]
    whose one-hour bound is a date, the 1-hour count of [loadStatistics]
    counts a report exactly when its timestamp parses to a time [t] with
    [now - 1h <= t]: a report stamped exactly at [now - 1h] is counted, and
    there is no upper bound.  The count is a function of the reports and
    of [now] alone: whatever the page showed before, the counter shows it. *)
Theorem C2_last_hour_count (reports : list JS.report) (now : Z) :
  Z.abs (now - 60 * 60 * 1000) ≤ JS.maxTime →
  (∀ r, JS.Date_ge (JS.timestamp r) (JS.oneHourAgo now) = true
        ↔ ∃ t, JS.timestamp r = JS.TimeValue t ∧ now - 60 * 60 * 1000 ≤ t)
  ∧ JS.lastHour reports now =
      length (List.filter
                (λ r, match JS.timestamp r with
                      | JS.TimeValue t => now - 60 * 60 * 1000 <=? t
                      | JS.InvalidDate => false
                      end) reports)
  ∧ JS.lastHour (report_at (now - 60 * 60 * 1000) :: reports) now
      = S (JS.lastHour reports now)
  ∧ (∀ page page',
       JS.lastHourCount (JS.loadStatistics page (Some reports) now)
       = JS.lastHourCount (JS.loadStatistics page' (Some reports) now))
  ∧ (∀ page,
       JS.lastHourCount (JS.loadStatistics page (Some reports) now)
       = JS.lastHour reports now).
Proof.
  intros Hnow.
  assert (Hago : JS.oneHourAgo now = JS.TimeValue (now - 60 * 60 * 1000))
    by (by apply TimeClip_in_range).
  split; [|split; [|split; [|split]]].
  - intros r. rewrite Hago. apply Date_ge_TimeValue.
  - unfold JS.lastHour. rewrite Hago. apply filter_ext_length.
    intros r. by destruct (JS.timestamp r).
  - unfold JS.lastHour. rewrite Hago. cbn [List.filter report_at JS.timestamp JS.Date_ge].
    by rewrite Z.leb_refl.
  - done.
  - done.
Qed.

(** Two reports, one of them stamped exactly one hour before [now]. *)
Lemma C2_last_hour_count_witness :
  JS.lastHour (report_at (1700000000000 - 60 * 60 * 1000) :: [report_at 1699999999000]) 1700000000000
  = S (JS.lastHour [report_at 1699999999000] 1700000000000).
Proof.
  refine (proj1 (proj2 (proj2 (C2_last_hour_count [report_at 1699999999000] 1700000000000 _)))).
  vm_compute. discriminate.
Defined.

(** C9: for every list of reports and every clock reading [now] whose
    six-hour bound is a date (every reading at or after the epoch is one),
    the three counts of [loadStatistics] are ordered: last hour <= last six
    hours <= last 24 hours, because a report that passes the one-hour test
    passes the six-hour test, and the 24-hour count is the whole list. *)
Theorem C9_window_counts_monotone (page : JS.statistics) (reports : list JS.report) (now : Z) :
  - JS.maxTime + 6 * 60 * 60 * 1000 ≤ now →
  let s := JS.loadStatistics page (Some reports) now in
  (JS.lastHourCount s ≤ JS.last6HourCount s)%nat
  ∧ (JS.last6HourCount s ≤ JS.last24HourCount s)%nat
  ∧ (∀ r, JS.Date_ge (JS.timestamp r) (JS.oneHourAgo now) = true →
          JS.Date_ge (JS.timestamp r) (JS.sixHoursAgo now) = true).
Proof.
  intros Hnow s. subst s. cbn [JS.loadStatistics JS.lastHourCount JS.last6HourCount JS.last24HourCount].
  split; [|split].
  - apply filter_length_mono. intros r. by apply oneHourAgo_sixHoursAgo.
  - apply filter_length_le.
  - intros r. by apply oneHourAgo_sixHoursAgo.
Qed.

(** Three reports, 1 second, 2 h 46 min and 19 h 26 min old. *)
Lemma C9_window_counts_monotone_witness :
  let s := JS.loadStatistics (JS.Build_statistics 0 0 0)
             (Some [report_at 1699999999000; report_at 1699990000000; report_at 1699930000000])
             1700000000000 in
  (JS.lastHourCount s ≤ JS.last6HourCount s)%nat
  ∧ (JS.last6HourCount s ≤ JS.last24HourCount s)%nat.
Proof.
  intros s.
  destruct (C9_window_counts_monotone (JS.Build_statistics 0 0 0)
              [report_at 1699999999000; report_at 1699990000000; report_at 1699930000000]
              1700000000000) as (H1 & H2 & _).
  - vm_compute. discriminate.
  - split; [exact H1 | exact H2].
Defined.

(** ** The status text of the dashboard *)

Lemma strict_equals_true v literal :
  JS.strict_equals v literal = true ↔ v = JS.JSString literal.
Proof.
  destruct v as [| |b|n|s]; simpl; try (split; [discriminate|done]).
  rewrite String.eqb_eq. split; [by intros ->|by intros [= ->]].
Qed.

Lemma strict_equals_false v literal :
  JS.strict_equals v literal = false ↔ v ≠ JS.JSString literal.
Proof.
  rewrite <- strict_equals_true. destruct (JS.strict_equals v literal); split; congruence.
Qed.

Example statusText_of_up :
  JS.refreshDashboard_statusText (service_with_status (JS.JSString "up"))
  = JS.Build_statusText "check" "text-success" "Operational".
Proof. reflexivity. Qed.

Example statusText_outside_the_enum :
  JS.refreshDashboard_statusText (service_with_status (JS.JSString "maintenance"))
  = JS.Build_statusText "check" "text-success" "Operational"
  ∧ JS.refreshDashboard_statusText (service_with_status JS.JSNull)
    = JS.Build_statusText "check" "text-success" "Operational".
Proof. split; reflexivity. Qed.

Example statusText_of_down :
  JS.refreshDashboard_statusText (service_with_status (JS.JSString "down"))
  = JS.Build_statusText "x" "text-danger" "Down".
Proof. reflexivity. Qed.

(** Closes an equivalence between two closed renderings and facts about
    the status: both sides are decided by the constructors at hand. *)
Ltac rendering_case :=
  intuition (try discriminate; try congruence; try done).

(** C10: the status text of [refreshDashboard] is total with the
    operational rendering as its default: for every service object the
    label and class are 'Issues'/'text-warning' exactly when [status] is
    the string 'issues', 'Down'/'text-danger' exactly when it is the string
    'down', and 'Operational'/'text-success' for every other value, be it
    'up', a string outside the enum, or no string at all; a card that has
    the status element shows that rendering. *)
Theorem C10_status_text_total (s : JS.service) :
  ((JS.statusLabel (JS.refreshDashboard_statusText s) = "Issues"
    ∧ JS.statusClass (JS.refreshDashboard_statusText s) = "text-warning")
   ↔ JS.status s = JS.JSString "issues")
  ∧ ((JS.statusLabel (JS.refreshDashboard_statusText s) = "Down"
      ∧ JS.statusClass (JS.refreshDashboard_statusText s) = "text-danger")
     ↔ JS.status s = JS.JSString "down")
  ∧ ((JS.statusLabel (JS.refreshDashboard_statusText s) = "Operational"
      ∧ JS.statusClass (JS.refreshDashboard_statusText s) = "text-success")
     ↔ (JS.status s ≠ JS.JSString "issues" ∧ JS.status s ≠ JS.JSString "down"))
  ∧ (∀ c shown, JS.statusText_element c = Some shown →
       JS.statusText_element (JS.refreshDashboard_card s c)
       = Some (JS.statusText_innerHTML (JS.refreshDashboard_statusText s))).
Proof.
  assert (Hcard : ∀ c shown, JS.statusText_element c = Some shown →
            JS.statusText_element (JS.refreshDashboard_card s c)
            = Some (JS.statusText_innerHTML (JS.refreshDashboard_statusText s))).
  { intros c shown Hc. unfold JS.refreshDashboard_card. by rewrite Hc. }
  unfold JS.refreshDashboard_statusText in *.
  destruct (JS.strict_equals (JS.status s) "issues") eqn:Hi;
    [|destruct (JS.strict_equals (JS.status s) "down") eqn:Hd].
  - apply strict_equals_true in Hi. rewrite Hi in *. cbn.
    split_and!; [rendering_case..|exact Hcard].
  - apply strict_equals_false in Hi. apply strict_equals_true in Hd. rewrite Hd in *. cbn.
    split_and!; [rendering_case..|exact Hcard].
  - apply strict_equals_false in Hi. apply strict_equals_false in Hd. cbn.
    split_and!; [rendering_case..|exact Hcard].
Qed.

(** ** Stored reports under the statements of the schema *)

Lemma on_delete_user_service_id now key r :
  Schema.OutageReports.service_id (Schema.OutageReports.on_delete_user now key r)
  = Schema.OutageReports.service_id r.
Proof. unfold Schema.OutageReports.on_delete_user. by case_decide. Qed.

Lemma on_delete_user_user_id now key r u :
  Schema.OutageReports.user_id (Schema.OutageReports.on_delete_user now key r) = Some u →
  Schema.OutageReports.user_id r = Some u ∧ u ≠ key.
Proof.
  unfold Schema.OutageReports.on_delete_user. case_decide as Hk; simpl; [done|].
  intros Hu. split; [done|]. intros ->. done.
Qed.


(** A direct update of the stored report of [db_with_report] at time
    9500, moving it to a second service and clearing its user: it is
    accepted, and the trigger stamps [updated_at]. *)
Example update_rewrites_the_stored_report :
  let d := default db_with_report
             (Schema.exec 4000 (Schema.InsertService 2 "Other" None) db_with_report) in
  let new := Schema.OutageReports.inserted 3000 1 (report_by 2 None) in
  Schema.outage_reports <$> Schema.exec 9500 (Schema.UpdateOutageReport 1 new) d
  = Some [Schema.OutageReports.with_user_id_updated_at None 9500 new].
Proof. vm_compute. reflexivity. Qed.




(** ** The classifier *)

Example classify_counts_0_to_6 :
  Engine.classify <$> (counts_with_last_hour <$> [0; 1; 2; 3; 4; 5; 6]%nat)
  = [Engine.up; Engine.up; Engine.issues; Engine.issues; Engine.issues;
     Engine.down; Engine.down].
Proof. reflexivity. Qed.

(** C1: the classifier returns [up] when the 1-hour count is below 2,
    [issues] when it is 2, 3 or 4 (so exactly 2 yields [issues]) and [down]
    when it is 5 or more (so exactly 5 yields [down]), for every count; two
    readings with the same 1-hour count are classified alike, whatever
    their 6-hour and 24-hour counts. *)
Theorem C1_classify_thresholds (w : Engine.WindowCounts) :
  (Engine.classify w = Engine.up ↔ (Engine.lastHour w < 2)%nat)
  ∧ (Engine.classify w = Engine.issues ↔ (2 ≤ Engine.lastHour w ≤ 4)%nat)
  ∧ (Engine.classify w = Engine.down ↔ (5 ≤ Engine.lastHour w)%nat)
  ∧ (∀ w', Engine.lastHour w' = Engine.lastHour w →
           Engine.classify w' = Engine.classify w)
  ∧ (∀ c6 c24, Engine.classify (Engine.Build_WindowCounts 2 c6 c24) = Engine.issues
               ∧ Engine.classify (Engine.Build_WindowCounts 5 c6 c24) = Engine.down).
Proof.
  split_and!.
  - unfold Engine.classify.
    destruct (Nat.ltb_spec (Engine.lastHour w) 2), (Nat.leb_spec (Engine.lastHour w) 4);
      split; (done || lia).
  - unfold Engine.classify.
    destruct (Nat.ltb_spec (Engine.lastHour w) 2), (Nat.leb_spec (Engine.lastHour w) 4);
      split; (done || lia).
  - unfold Engine.classify.
    destruct (Nat.ltb_spec (Engine.lastHour w) 2), (Nat.leb_spec (Engine.lastHour w) 4);
      split; (done || lia).
  - intros w' Hw. unfold Engine.classify. by rewrite Hw.
  - intros c6 c24. split; reflexivity.
Qed.

(** ** The status machine of a service *)

Lemma status_name_valid s : valid_status (Engine.status_name s).
Proof. unfold valid_status. destruct s; simpl; auto. Qed.

Lemma initial_invariant : services_invariant Schema.initial.
Proof. intros sid r Hr. simpl in Hr. by rewrite lookup_empty in Hr. Qed.

Lemma exec_invariant now s d d' :
  Schema.exec now s d = Some d' → services_invariant d → services_invariant d'.
Proof.
  intros Hexec Hinv sid r.
  destruct s as [|ty nm u|v|key|key|key new|key]; simpl in Hexec.
  - injection Hexec as <-. simpl. apply Hinv.
  - destruct (decide (ty ∈ Schema.service_types d)); [|discriminate].
    injection Hexec as <-. simpl. rewrite lookup_insert_Some.
    intros [[<- <-]|[Hne Hr]].
    + split; [left; reflexivity|lia].
    + destruct (Hinv _ _ Hr). split; [done|lia].
  - destruct (_ && _); [|discriminate].
    injection Hexec as <-. simpl. apply Hinv.
  - injection Hexec as <-. simpl. apply Hinv.
  - injection Hexec as <-. simpl. rewrite lookup_delete_Some.
    intros [_ Hr]. by apply Hinv.
  - destruct (bool_decide (key ∈ Schema.report_keys d)).
    + destruct (_ && _); [|discriminate]. injection Hexec as <-. simpl. apply Hinv.
    + injection Hexec as <-. apply Hinv.
  - injection Hexec as <-. simpl. apply Hinv.
Qed.

Lemma set_current_status_invariant now sid st d :
  valid_status st → services_invariant d →
  services_invariant (Engine.set_current_status now sid st d).
Proof.
  intros Hst Hinv key r. simpl. rewrite lookup_alter_Some.
  intros [(<- & r0 & Hr0 & ->)|[Hne Hr]].
  - split; [exact Hst|]. by destruct (Hinv _ _ Hr0).
  - by apply Hinv.
Qed.

Lemma reclassify_invariant now sid e :
  services_invariant (Engine.store e) →
  services_invariant (Engine.store (Engine.reclassify now sid e)).
Proof.
  intros Hinv. unfold Engine.reclassify.
  destruct (Schema.services (Engine.store e) !! sid) as [r|]; [|done].
  cbn zeta. destruct (String.eqb _ _); [done|]. simpl.
  apply set_current_status_invariant; [apply status_name_valid|done].
Qed.

Lemma handle_invariant now i e e' :
  Engine.handle now i e = Some e' →
  services_invariant (Engine.store e) → services_invariant (Engine.store e').
Proof.
  intros Hh Hinv. destruct i as [s|sid]; simpl in Hh.
  - destruct (Schema.exec now s (Engine.store e)) as [d|] eqn:Hexec; [|discriminate].
    pose proof (exec_invariant _ _ _ _ Hexec Hinv) as Hd.
    destruct s; injection Hh as <-; try exact Hd.
    by apply reclassify_invariant.
  - injection Hh as <-. by apply reclassify_invariant.
Qed.

Lemma reachable_invariant e :
  Engine.reachable e → services_invariant (Engine.store e).
Proof.
  induction 1 as [|now i e e' _ IH Hh].
  - apply initial_invariant.
  - by apply (handle_invariant now i e e').
Qed.

Lemma reachable_run inputs e :
  Engine.reachable e → Engine.reachable (Engine.run inputs e).
Proof.
  revert e. induction inputs as [|[now i] rest IH]; intros e He; simpl; [done|].
  apply IH. destruct (Engine.handle now i e) as [e'|] eqn:Hh; [|done].
  by apply (Engine.reachable_handle now i e e').
Qed.

(** C7: the status machine of a service starts in [up] when the service
    is created (the row gets a fresh key and the column default), and in
    every state the engine can reach, through creations, deletions, report
    insertions and ticks, the stored status of every service is one of
    exactly [up], [issues] and [down]; the value an engine loads at startup
    is that stored status. *)
Theorem C7_status_is_one_of_three (e : Engine.engine) :
  Engine.reachable e →
  (∀ sid st, Engine.current sid e = Some st → valid_status st)
  ∧ (∀ now ty nm u e',
       Engine.handle now (Engine.Statement (Schema.InsertService ty nm u)) e = Some e' →
       Engine.current (Schema.services_id_seq (Engine.store e)) e = None
       ∧ Engine.current (Schema.services_id_seq (Engine.store e)) e' = Some "up").
Proof.
  intros Hreach. pose proof (reachable_invariant e Hreach) as Hinv. split.
  - intros sid st. unfold Engine.current.
    destruct (Schema.services (Engine.store e) !! sid) as [r|] eqn:Hr; [|done].
    intros [= <-]. by destruct (Hinv _ _ Hr).
  - intros now ty nm u e' Hh. simpl in Hh.
    destruct (decide (ty ∈ Schema.service_types (Engine.store e))); [|discriminate].
    injection Hh as <-. unfold Engine.current. simpl. split.
    + destruct (Schema.services (Engine.store e) !! Schema.services_id_seq (Engine.store e))
        as [r|] eqn:Hr; [|done].
      destruct (Hinv _ _ Hr). lia.
    + by rewrite lookup_insert_eq.
Qed.

(** The service of the scenario after its five reports: [down], one of
    the three values. *)
Lemma C7_status_is_one_of_three_witness :
  Engine.current 1 (Engine.run Engine.five_reports Engine.one_service) = Some "down"
  ∧ valid_status "down".
Proof.
  assert (Hcur : Engine.current 1 (Engine.run Engine.five_reports Engine.one_service)
                 = Some "down") by (vm_compute; reflexivity).
  split; [exact Hcur|].
  refine (proj1 (C7_status_is_one_of_three
                   (Engine.run Engine.five_reports Engine.one_service) _) 1 "down" Hcur).
  apply reachable_run. apply reachable_run. apply Engine.reachable_initial.
Defined.

(** ** The list of reports *)

#[local] Instance newest_first_transitive : Transitive Engine.newest_first.
Proof. intros r1 r2 r3. unfold Engine.newest_first. lia. Qed.

#[local] Instance newest_first_total : Total Engine.newest_first.
Proof. intros r1 r2. unfold Engine.newest_first. lia. Qed.

Lemma sorted_prefix_dominates (l : list Schema.OutageReports.row) k r1 r2 :
  StronglySorted Engine.newest_first l →
  r1 ∈ take k l → r2 ∈ drop k l →
  Schema.OutageReports.created_at r2 ≤ Schema.OutageReports.created_at r1.
Proof.
  intros Hs H1 H2. rewrite <- (take_drop k l) in Hs.
  exact (StronglySorted_app_1_elem_of _ _ _ _ _ Hs H1 H2).
Qed.

Example list_reports_of_the_scenario :
  Schema.OutageReports.id <$>
    Engine.list_reports (Engine.t0 + 60000) 1 (Some 24)
      (Engine.store (Engine.run Engine.five_reports Engine.one_service))
  = [5; 4; 3; 2; 1].
Proof. vm_compute. reflexivity. Qed.

(** C8: for every service and every [hoursLookback], given or not, [list
    reports] returns exactly the reports of the service that the lookback
    selects, ordered newest first (timestamps never increase along the
    sequence), so that every report of a prefix is at least as recent as
    every report after the prefix; the ten reports the detail page keeps
    with [slice(0, 10)] are such a prefix. *)
Theorem C8_list_reports_newest_first
    (now sid : Z) (hoursLookback : option Z) (d : Schema.db) :
  StronglySorted Engine.newest_first (Engine.list_reports now sid hoursLookback d)
  ∧ Engine.list_reports now sid hoursLookback d
      ≡ₚ Engine.selected_reports now sid hoursLookback d
  ∧ (∀ k r1 r2,
       r1 ∈ take k (Engine.list_reports now sid hoursLookback d) →
       r2 ∈ drop k (Engine.list_reports now sid hoursLookback d) →
       Schema.OutageReports.created_at r2 ≤ Schema.OutageReports.created_at r1)
  ∧ (∀ r1 r2,
       r1 ∈ JS.recentReports (Engine.list_reports now sid hoursLookback d) →
       r2 ∈ drop 10 (Engine.list_reports now sid hoursLookback d) →
       Schema.OutageReports.created_at r2 ≤ Schema.OutageReports.created_at r1).
Proof.
  assert (Hs : StronglySorted Engine.newest_first
                 (Engine.list_reports now sid hoursLookback d))
    by (unfold Engine.list_reports; apply StronglySorted_merge_sort; apply _).
  split_and!.
  - exact Hs.
  - unfold Engine.list_reports. apply merge_sort_Permutation.
  - intros k r1 r2. by apply sorted_prefix_dominates.
  - intros r1 r2. unfold JS.recentReports, JS.slice0. by apply sorted_prefix_dominates.
Qed.

(** ** Text: occurrences and splitting *)

Lemma string_app_cons (x : Ascii.ascii) (a b : string) :
  String x a +:+ b = String x (a +:+ b).
Proof. reflexivity. Qed.

Lemma string_app_nil_l (b : string) : "" +:+ b = b.
Proof. reflexivity. Qed.

Lemma string_app_assoc (a b c : string) : (a +:+ b) +:+ c = a +:+ (b +:+ c).
Proof.
  induction a as [|x a IH]; [done|]. by rewrite !string_app_cons, IH.
Qed.

Lemma string_app_nil_r (a : string) : a +:+ "" = a.
Proof. induction a as [|x a IH]; [done|]. by rewrite string_app_cons, IH. Qed.

Lemma prefix_nil (s : string) : String.prefix "" s = true.
Proof. by destruct s. Qed.

Lemma prefix_cons (x y : Ascii.ascii) (p s : string) :
  String.prefix (String x p) (String y s)
  = if Ascii.ascii_dec x y then String.prefix p s else false.
Proof. simpl. by destruct (Ascii.ascii_dec x y). Qed.

Lemma prefix_spec (p s : string) :
  String.prefix p s = true ↔ ∃ r, s = p +:+ r.
Proof.
  revert s. induction p as [|x p IH]; intros s.
  - rewrite prefix_nil. split; [by exists s|done].
  - destruct s as [|y s].
    + split; [done|]. by intros [r Hr].
    + rewrite prefix_cons. destruct (Ascii.ascii_dec x y) as [->|Hne].
      * rewrite IH. split; intros [r Hr]; exists r.
        -- by rewrite string_app_cons, Hr.
        -- rewrite string_app_cons in Hr. by injection Hr.
      * split; [done|]. intros [r Hr]. rewrite string_app_cons in Hr.
        injection Hr as Hxy _. congruence.
Qed.

Lemma includes_nil (n : string) :
  Text.includes "" n = String.prefix n "".
Proof. cbn [Text.includes]. apply orb_false_r. Qed.

Lemma includes_cons (x : Ascii.ascii) (s n : string) :
  Text.includes (String x s) n = String.prefix n (String x s) || Text.includes s n.
Proof. reflexivity. Qed.

Lemma includes_spec (s n : string) :
  Text.includes s n = true ↔ ∃ a b, s = a +:+ (n +:+ b).
Proof.
  induction s as [|x s IH].
  - rewrite includes_nil, prefix_spec. split.
    + intros [r Hr]. by exists ""%string, r.
    + intros (a & b & Hab). destruct a; [by exists b|done].
  - rewrite includes_cons, orb_true_iff, IH, prefix_spec. split.
    + intros [[r Hr]|(a & b & Hab)].
      * by exists ""%string, r.
      * exists (String x a), b. by rewrite string_app_cons, Hab.
    + intros (a & b & Hab). destruct a as [|y a].
      * left. by exists b.
      * right. rewrite string_app_cons in Hab. injection Hab as _ Hab. by exists a, b.
Qed.

Lemma includes_empty (s : string) : Text.includes s "" = true.
Proof. apply includes_spec. by exists ""%string, s. Qed.

Lemma includes_refl (s : string) : Text.includes s s = true.
Proof.
  apply includes_spec. exists ""%string, ""%string.
  by rewrite string_app_nil_l, string_app_nil_r.
Qed.

Lemma includes_trans (s m n : string) :
  Text.includes s m = true → Text.includes m n = true → Text.includes s n = true.
Proof.
  rewrite !includes_spec. intros (a & b & ->) (c & d & ->).
  exists (a +:+ c), (d +:+ b). by rewrite !string_app_assoc.
Qed.

Lemma includes_in_empty (n : string) : Text.includes "" n = true ↔ n = ""%string.
Proof.
  rewrite includes_spec. split.
  - intros (a & b & Hab). destruct a; [|done]. by destruct n.
  - intros ->. by exists ""%string, ""%string.
Qed.

(** ** dashboard.js: the search *)

Lemma shouldShow_includes query it :
  Dashboard.shouldShow query it = Text.includes (Dashboard.dataset_serviceName it) query.
Proof.
  unfold Dashboard.shouldShow. destruct (String.eqb_spec query "") as [->|Hne].
  - by rewrite includes_empty.
  - apply orb_false_r.
Qed.

Lemma filter_length_all {A} (p : A → bool) (l : list A) :
  length (List.filter p l) = length l ↔ ∀ x, x ∈ l → p x = true.
Proof.
  induction l as [|x l IH]; simpl.
  - split; [|done]. intros _ x Hx. by apply elem_of_nil in Hx.
  - pose proof (filter_length_le p l) as Hle. destruct (p x) eqn:Hp; simpl.
    + split.
      * intros Hlen y [->|Hy]%elem_of_cons; [done|]. apply IH; [lia|done].
      * intros Hall. f_equal. apply IH. intros y Hy. apply Hall. by right.
    + split; [lia|]. intros Hall. rewrite Hall in Hp; [done|by left].
Qed.

Lemma filter_length_none {A} (p : A → bool) (l : list A) :
  length (List.filter p l) = 0%nat ↔ ∀ x, x ∈ l → p x = false.
Proof.
  induction l as [|x l IH]; simpl.
  - split; [|done]. intros _ x Hx. by apply elem_of_nil in Hx.
  - destruct (p x) eqn:Hp; simpl.
    + split; [done|]. intros Hall. rewrite Hall in Hp; [done|by left].
    + rewrite IH. split.
      * intros Hall y [->|Hy]%elem_of_cons; [done|by apply Hall].
      * intros Hall y Hy. apply Hall. by right.
Qed.

(** X1: [performSearch] leaves the "no services found" element on the page
    exactly when the query is not empty and no item's name contains it,
    whether or not such an element was there before; an item is shown
    exactly when its name contains the query (an item without the name
    attribute counts as the empty name), so the empty query, which the
    Escape key submits, shows every item and no message. *)
Theorem X1_search_message (query : string) (g : Dashboard.grid) :
  (is_Some (Dashboard.noResults (Dashboard.performSearch query g))
   ↔ query ≠ ""%string
     ∧ ∀ it, it ∈ Dashboard.items g →
             Text.includes (Dashboard.dataset_serviceName it) query = false)
  ∧ (Dashboard.noResults (Dashboard.performSearch query g) = None
     ↔ query = ""%string
       ∨ ∃ it, it ∈ Dashboard.items g
               ∧ Text.includes (Dashboard.dataset_serviceName it) query = true)
  ∧ (∀ it, Dashboard.display (Dashboard.performSearch_item "" it) = "block"%string
           ∧ Dashboard.opacity (Dashboard.performSearch_item "" it) = "1"%string)
  ∧ Dashboard.noResults (Dashboard.performSearch "" g) = None.
Proof.
  assert (Hcount : (Dashboard.visibleCount query (Dashboard.items g) =? 0)%nat = true
            ↔ ∀ it, it ∈ Dashboard.items g →
                    Text.includes (Dashboard.dataset_serviceName it) query = false).
  { rewrite Nat.eqb_eq. unfold Dashboard.visibleCount. rewrite filter_length_none.
    split; intros H it Hit; specialize (H it Hit); by rewrite shouldShow_includes in *. }
  split_and!.
  - cbn [Dashboard.performSearch Dashboard.noResults].
    destruct (Dashboard.visibleCount query (Dashboard.items g) =? 0)%nat eqn:Hc;
      destruct (String.eqb_spec query "") as [Hq|Hq]; simpl.
    + split; [by intros [? ?]|]. by intros [? _].
    + split; [|by eexists]. intros _. split; [done|]. by apply Hcount.
    + split; [by intros [? ?]|]. by intros [? _].
    + split; [by intros [? ?]|]. intros [_ Hall]. by apply Hcount in Hall.
  - cbn [Dashboard.performSearch Dashboard.noResults].
    destruct (Dashboard.visibleCount query (Dashboard.items g) =? 0)%nat eqn:Hc;
      destruct (String.eqb_spec query "") as [Hq|Hq]; simpl.
    + split; [by left|done].
    + split; [done|]. intros [?|(it & Hit & Hinc)]; [done|].
      by rewrite (proj1 Hcount eq_refl it Hit) in Hinc.
    + split; [by left|done].
    + split; [|done]. intros _. right. clear Hc.
      assert (Hc : ¬ ∀ it, it ∈ Dashboard.items g →
                   Text.includes (Dashboard.dataset_serviceName it) query = false)
        by (intros Hall; by apply Hcount in Hall).
      destruct (List.existsb (λ it, Text.includes (Dashboard.dataset_serviceName it) query)
                  (Dashboard.items g)) eqn:Hex.
      * apply List.existsb_exists in Hex as (it & Hit & Hinc).
        exists it. split; [by apply list_elem_of_In|done].
      * exfalso. apply Hc. intros it Hit.
        destruct (Text.includes (Dashboard.dataset_serviceName it) query) eqn:Hinc; [|done].
        assert (List.existsb (λ it, Text.includes (Dashboard.dataset_serviceName it) query)
                  (Dashboard.items g) = true); [|congruence].
        apply List.existsb_exists. exists it. split; [by apply list_elem_of_In|done].
  - intros it. unfold Dashboard.performSearch_item.
    by rewrite shouldShow_includes, includes_empty.
  - cbn [Dashboard.performSearch Dashboard.noResults]. simpl. by rewrite andb_false_r.
Qed.

(** X2: narrowing a query never brings an item back: when the query [q1]
    occurs inside the query [q2] (for instance [q2] is [q1] with more
    characters typed), every item shown for [q2] is shown for [q1], and
    the count of visible items for [q2] is at most that for [q1]. *)
Theorem X2_search_narrowing (q1 q2 : string) (its : list Dashboard.item) :
  Text.includes q2 q1 = true →
  (∀ it, Dashboard.shouldShow q2 it = true → Dashboard.shouldShow q1 it = true)
  ∧ (Dashboard.visibleCount q2 its ≤ Dashboard.visibleCount q1 its)%nat.
Proof.
  intros Hq.
  assert (Himp : ∀ it, Dashboard.shouldShow q2 it = true → Dashboard.shouldShow q1 it = true).
  { intros it. rewrite !shouldShow_includes. intros H2. by apply (includes_trans _ q2). }
  split; [exact Himp|]. unfold Dashboard.visibleCount. by apply filter_length_mono.
Qed.

(** The items named "discord" and "gmail" under the queries "disc" and
    "discord". *)
Lemma X2_search_narrowing_witness :
  (Dashboard.visibleCount "discord"
     [ Dashboard.Build_item (Some "discord") "block" "1";
       Dashboard.Build_item (Some "gmail") "block" "1" ]
   ≤ Dashboard.visibleCount "disc"
       [ Dashboard.Build_item (Some "discord") "block" "1";
         Dashboard.Build_item (Some "gmail") "block" "1" ])%nat.
Proof.
  refine (proj2 (X2_search_narrowing "disc" "discord" _ _)).
  vm_compute. reflexivity.
Defined.

Lemma item_events_app es1 es2 it :
  Dashboard.item_events (es1 ++ es2) it
  = Dashboard.item_events es2 (Dashboard.item_events es1 it).
Proof. unfold Dashboard.item_events. apply fold_left_app. Qed.

Lemma item_event_serviceName e it :
  Dashboard.serviceName (Dashboard.item_event e it) = Dashboard.serviceName it.
Proof.
  destruct e as [q|]; simpl.
  - unfold Dashboard.performSearch_item. by destruct (Dashboard.shouldShow q it).
  - unfold Dashboard.hideTimer. by destruct (String.eqb _ _).
Qed.

Lemma item_events_serviceName es it :
  Dashboard.serviceName (Dashboard.item_events es it) = Dashboard.serviceName it.
Proof.
  revert it. induction es as [|e es IH]; intros it; [done|].
  change (Dashboard.item_events (e :: es) it)
    with (Dashboard.item_events es (Dashboard.item_event e it)).
  by rewrite IH, item_event_serviceName.
Qed.

Lemma shouldShow_serviceName q it it' :
  Dashboard.serviceName it' = Dashboard.serviceName it →
  Dashboard.shouldShow q it' = Dashboard.shouldShow q it.
Proof. intros H. unfold Dashboard.shouldShow, Dashboard.dataset_serviceName. by rewrite H. Qed.

Lemma timers_keep_shown n it :
  Dashboard.display it = "block"%string → Dashboard.opacity it = "1"%string →
  Dashboard.item_events (replicate n Dashboard.TimerFires) it = it.
Proof.
  intros Hd Ho. induction n as [|n IH]; [done|].
  change (Dashboard.item_events (replicate (S n) Dashboard.TimerFires) it)
    with (Dashboard.item_events (replicate n Dashboard.TimerFires) (Dashboard.hideTimer it)).
  unfold Dashboard.hideTimer at 1. rewrite Ho. simpl. exact IH.
Qed.

Lemma timers_hide_hidden n it :
  Dashboard.opacity it = "0"%string →
  Dashboard.display (Dashboard.item_events (replicate (S n) Dashboard.TimerFires) it)
  = "none"%string
  ∧ Dashboard.opacity (Dashboard.item_events (replicate (S n) Dashboard.TimerFires) it)
    = "0"%string.
Proof.
  revert it. induction n as [|n IH]; intros it Ho.
  - cbn. unfold Dashboard.hideTimer. rewrite Ho. by simpl.
  - change (Dashboard.item_events (replicate (S (S n)) Dashboard.TimerFires) it)
      with (Dashboard.item_events (replicate (S n) Dashboard.TimerFires) (Dashboard.hideTimer it)).
    apply IH. unfold Dashboard.hideTimer. rewrite Ho. by simpl.
Qed.

(** X3: a stale timer never hides what a later search shows.  Whatever
    searches ran before and whichever of their timers fired, after a
    search for [query] an item whose name contains it is displayed
    ([display = 'block'], [opacity = '1']) at once, and stays so however
    many timers fire afterwards; an item whose name does not contain it is
    taken out of the layout ([display = 'none']) as soon as one timer has
    fired. *)
Theorem X3_last_search_decides
    (earlier : list Dashboard.event) (query : string) (timers : nat) (it : Dashboard.item) :
  (Dashboard.shouldShow query it = true →
   Dashboard.display
     (Dashboard.item_events
        (earlier ++ Dashboard.Search query :: replicate timers Dashboard.TimerFires) it)
   = "block"%string
   ∧ Dashboard.opacity
       (Dashboard.item_events
          (earlier ++ Dashboard.Search query :: replicate timers Dashboard.TimerFires) it)
     = "1"%string)
  ∧ (Dashboard.shouldShow query it = false →
     Dashboard.display
       (Dashboard.item_events
          (earlier ++ Dashboard.Search query :: replicate (S timers) Dashboard.TimerFires) it)
     = "none"%string).
Proof.
  split; intros Hshow.
  - rewrite item_events_app.
    change (Dashboard.item_events (Dashboard.Search query :: ?l) ?x)
      with (Dashboard.item_events l (Dashboard.performSearch_item query x)).
    set (it1 := Dashboard.item_events earlier it).
    assert (Hs : Dashboard.shouldShow query it1 = true).
    { rewrite <- Hshow. apply shouldShow_serviceName, item_events_serviceName. }
    assert (Hd : Dashboard.display (Dashboard.performSearch_item query it1) = "block"%string)
      by (unfold Dashboard.performSearch_item; by rewrite Hs).
    assert (Ho : Dashboard.opacity (Dashboard.performSearch_item query it1) = "1"%string)
      by (unfold Dashboard.performSearch_item; by rewrite Hs).
    by rewrite (timers_keep_shown _ _ Hd Ho).
  - rewrite item_events_app.
    change (Dashboard.item_events (Dashboard.Search query :: ?l) ?x)
      with (Dashboard.item_events l (Dashboard.performSearch_item query x)).
    set (it1 := Dashboard.item_events earlier it).
    assert (Hs : Dashboard.shouldShow query it1 = false).
    { rewrite <- Hshow. apply shouldShow_serviceName, item_events_serviceName. }
    apply timers_hide_hidden. unfold Dashboard.performSearch_item. by rewrite Hs.
Qed.

(** Three items, the second without the name attribute, and the term
    "gmail": the first item is hidden, the handler throws at the second,
    and the third, which matches, keeps the display it had. *)
Example firstSearch_stops_at_the_nameless_item :
  Dashboard.firstSearch "gmail"
    [ {| Dashboard.serviceName := Some "discord"; Dashboard.display := "block";
         Dashboard.opacity := "1" |};
      {| Dashboard.serviceName := None; Dashboard.display := "block";
         Dashboard.opacity := "1" |};
      {| Dashboard.serviceName := Some "gmail"; Dashboard.display := "none";
         Dashboard.opacity := "1" |} ]
  = ([ {| Dashboard.serviceName := Some "discord"; Dashboard.display := "none";
          Dashboard.opacity := "1" |};
       {| Dashboard.serviceName := None; Dashboard.display := "block";
          Dashboard.opacity := "1" |};
       {| Dashboard.serviceName := Some "gmail"; Dashboard.display := "none";
          Dashboard.opacity := "1" |} ], true).
Proof. vm_compute. reflexivity. Qed.

Lemma firstSearch_all_named (query : string) (l : list Dashboard.item) :
  Forall (λ i, is_Some (Dashboard.serviceName i)) l →
  Dashboard.firstSearch query l = (Dashboard.simpleSearch query l, false).
Proof.
  induction 1 as [|i l [name Hn] _ IH]; [done|].
  cbn [Dashboard.firstSearch]. rewrite Hn, IH.
  unfold Dashboard.simpleSearch. rewrite fmap_cons.
  unfold Dashboard.simpleSearch_display, Dashboard.dataset_serviceName.
  by rewrite Hn.
Qed.

(** X4: the three dashboards decide alike, up to the first item without a
    name.  The minimal dashboard shows an item ([display = 'block'])
    exactly when [performSearch] of the modern one does, so the clause
    [|| query === ''] of the latter adds nothing.  The first dashboard
    sets the display of every item as the minimal one does when every
    item has the name attribute; at the first item that lacks it the
    handler throws: the items before it have the display of the minimal
    dashboard, that item and every item after it, with or without the
    attribute, keep the display they had. *)
Theorem X4_dashboards_agree (query : string) (it : Dashboard.item)
    (before after : list Dashboard.item) :
  (Dashboard.simpleSearch_display query it = "block"%string
   ↔ Dashboard.shouldShow query it = true)
  ∧ (Dashboard.simpleSearch_display query it = "none"%string
     ↔ Dashboard.shouldShow query it = false)
  ∧ (Forall (λ i, is_Some (Dashboard.serviceName i)) before →
       Dashboard.firstSearch query before = (Dashboard.simpleSearch query before, false))
  ∧ (Forall (λ i, is_Some (Dashboard.serviceName i)) before →
     Dashboard.serviceName it = None →
       Dashboard.firstSearch query (before ++ it :: after)
       = (Dashboard.simpleSearch query before ++ it :: after, true)).
Proof.
  split_and!.
  - rewrite shouldShow_includes. unfold Dashboard.simpleSearch_display.
    by destruct (Text.includes _ _).
  - rewrite shouldShow_includes. unfold Dashboard.simpleSearch_display.
    by destruct (Text.includes _ _).
  - apply firstSearch_all_named.
  - intros Hbefore Hit. induction Hbefore as [|i l [name Hn] _ IH].
    + cbn [app Dashboard.firstSearch]. by rewrite Hit.
    + rewrite <- app_comm_cons. cbn [Dashboard.firstSearch]. rewrite Hn, IH.
      unfold Dashboard.simpleSearch. rewrite fmap_cons, <- app_comm_cons.
      unfold Dashboard.simpleSearch_display, Dashboard.dataset_serviceName.
      by rewrite Hn.
Qed.

(** ** dashboard.js: placeholder and counters *)

Lemma nextIndex_iter n : Nat.iter n Dashboard.nextIndex 0%nat = (n mod 4)%nat.
Proof.
  induction n as [|n IH]; [done|].
  change (Nat.iter (S n) Dashboard.nextIndex 0%nat)
    with (Dashboard.nextIndex (Nat.iter n Dashboard.nextIndex 0%nat)).
  rewrite IH. unfold Dashboard.nextIndex.
  change (length Dashboard.placeholders) with 4%nat.
  rewrite Nat.Div0.add_mod_idemp_l. f_equal. lia.
Qed.

(** X5: the rotating placeholder of the search box never runs off its
    list: before the first run of the interval callback the box shows the
    placeholder of the page's template, and after [n + 1] runs it shows
    entry [(n + 1) mod 4] of [placeholders], so from the first run on it
    is always one of the four texts and the same text returns every four
    runs. *)
Theorem X5_placeholder_cycles (template : string) (n : nat) :
  Dashboard.placeholder_after template 0 = Some template
  ∧ Dashboard.placeholder_after template (S n) = Dashboard.placeholders !! (S n mod 4)%nat
  ∧ is_Some (Dashboard.placeholder_after template (S n))
  ∧ Dashboard.placeholder_after template (S n + 4)
    = Dashboard.placeholder_after template (S n).
Proof.
  change (S n + 4)%nat with (S (n + 4)).
  unfold Dashboard.placeholder_after. rewrite !nextIndex_iter. split_and!.
  - done.
  - done.
  - apply lookup_lt_is_Some. change (length Dashboard.placeholders) with 4%nat.
    apply Nat.mod_upper_bound. lia.
  - f_equal. change (S (n + 4)) with (S n + 4)%nat.
    rewrite <- (Nat.Div0.add_mod_idemp_r (S n) 4 4). simpl (4 mod 4)%nat.
    by rewrite Nat.add_0_r.
Qed.

Lemma fold_count_wave waves acc :
  Dashboard.upCount (fold_left Dashboard.count_wave waves acc)
  = (Dashboard.upCount acc
     + length (List.filter (λ w, Dashboard.contains w "status-up") waves))%nat
  ∧ Dashboard.issuesCount (fold_left Dashboard.count_wave waves acc)
    = (Dashboard.issuesCount acc
       + length (List.filter (λ w, negb (Dashboard.contains w "status-up")
                                   && Dashboard.contains w "status-issues") waves))%nat
  ∧ Dashboard.downCount (fold_left Dashboard.count_wave waves acc)
    = (Dashboard.downCount acc
       + length (List.filter (λ w, negb (Dashboard.contains w "status-up")
                                   && negb (Dashboard.contains w "status-issues")
                                   && Dashboard.contains w "status-down") waves))%nat.
Proof.
  revert acc. induction waves as [|w waves IH]; intros acc.
  - simpl. lia.
  - cbn [fold_left List.filter]. destruct (IH (Dashboard.count_wave acc w)) as (Hu & Hi & Hd).
    rewrite Hu, Hi, Hd. unfold Dashboard.count_wave.
    destruct (Dashboard.contains w "status-up"),
             (Dashboard.contains w "status-issues"),
             (Dashboard.contains w "status-down"); simpl; lia.
Qed.

Lemma filter_partition_length {A} (p1 p2 p3 q : A → bool) (l : list A) :
  (∀ x, (if p1 x then 1 else 0) + (if p2 x then 1 else 0) + (if p3 x then 1 else 0)
        = if q x then 1 else 0)%nat →
  (length (List.filter p1 l) + length (List.filter p2 l) + length (List.filter p3 l)
   = length (List.filter q l))%nat.
Proof.
  intros H. induction l as [|x l IH]; [done|]. simpl. specialize (H x).
  destruct (p1 x), (p2 x), (p3 x), (q x); simpl in *; lia.
Qed.

(** X6: [updateStatusCounts] counts every wave at most once: a wave
    carrying [status-up] counts as up whatever else it carries, one
    without it carrying [status-issues] counts as issues also when it
    carries [status-down], and one carrying only [status-down] of the
    three counts as down; the three counters add
    up to the number of waves that carry a status class at all, so they
    add up to the number of waves exactly when every wave carries one. *)
Theorem X6_status_counts (waves : list Dashboard.classList) :
  Dashboard.upCount (Dashboard.updateStatusCounts waves)
  = length (List.filter (λ w, Dashboard.contains w "status-up") waves)
  ∧ Dashboard.issuesCount (Dashboard.updateStatusCounts waves)
    = length (List.filter (λ w, negb (Dashboard.contains w "status-up")
                                && Dashboard.contains w "status-issues") waves)
  ∧ Dashboard.downCount (Dashboard.updateStatusCounts waves)
    = length (List.filter (λ w, negb (Dashboard.contains w "status-up")
                                && negb (Dashboard.contains w "status-issues")
                                && Dashboard.contains w "status-down") waves)
  ∧ (Dashboard.upCount (Dashboard.updateStatusCounts waves)
     + Dashboard.issuesCount (Dashboard.updateStatusCounts waves)
     + Dashboard.downCount (Dashboard.updateStatusCounts waves)
     = length (List.filter has_status_class waves))%nat
  ∧ (Dashboard.upCount (Dashboard.updateStatusCounts waves)
     + Dashboard.issuesCount (Dashboard.updateStatusCounts waves)
     + Dashboard.downCount (Dashboard.updateStatusCounts waves)
     ≤ length waves)%nat
  ∧ ((Dashboard.upCount (Dashboard.updateStatusCounts waves)
      + Dashboard.issuesCount (Dashboard.updateStatusCounts waves)
      + Dashboard.downCount (Dashboard.updateStatusCounts waves)
      = length waves)%nat
     ↔ ∀ w, w ∈ waves → has_status_class w = true).
Proof.
  unfold Dashboard.updateStatusCounts.
  destruct (fold_count_wave waves (Dashboard.Build_statusCounts 0 0 0)) as (Hu & Hi & Hd).
  rewrite Hu, Hi, Hd. cbn [Dashboard.upCount Dashboard.issuesCount Dashboard.downCount].
  rewrite !Nat.add_0_l.
  assert (Hsum :
    (length (List.filter (λ w, Dashboard.contains w "status-up") waves)
     + length (List.filter (λ w, negb (Dashboard.contains w "status-up")
                                 && Dashboard.contains w "status-issues") waves)
     + length (List.filter (λ w, negb (Dashboard.contains w "status-up")
                                 && negb (Dashboard.contains w "status-issues")
                                 && Dashboard.contains w "status-down") waves)
     = length (List.filter has_status_class waves))%nat).
  { apply filter_partition_length. intros w. unfold has_status_class.
    by destruct (Dashboard.contains w "status-up"),
                (Dashboard.contains w "status-issues"),
                (Dashboard.contains w "status-down"). }
  rewrite Hsum. split_and!.
  - done.
  - done.
  - done.
  - done.
  - apply filter_length_le.
  - apply filter_length_all.
Qed.

(** ** dashboard.js: the text of a card under status updates *)

Lemma split_first_nil sep : Text.split_first sep "" = ""%string.
Proof. cbn [Text.split_first]. by destruct (String.prefix sep ""). Qed.

Lemma split_first_cons sep a t :
  Text.split_first sep (String a t)
  = if String.prefix sep (String a t) then ""%string
    else String a (Text.split_first sep t).
Proof. reflexivity. Qed.

Lemma split_first_is_prefix sep t : ∃ r, t = Text.split_first sep t +:+ r.
Proof.
  induction t as [|a t [r IH]].
  - exists ""%string. by rewrite split_first_nil.
  - rewrite split_first_cons. destruct (String.prefix sep (String a t)).
    + by exists (String a t).
    + exists r. by rewrite string_app_cons, <- IH.
Qed.

Lemma split_first_no_occurrence sep t :
  sep ≠ ""%string → Text.includes (Text.split_first sep t) sep = false.
Proof.
  intros Hsep. induction t as [|a t IH].
  - rewrite split_first_nil, includes_nil. by destruct sep.
  - rewrite split_first_cons. destruct (String.prefix sep (String a t)) eqn:Hp.
    + rewrite includes_nil. by destruct sep.
    + rewrite includes_cons, IH, orb_false_r.
      apply not_true_iff_false. intros [r Hr]%prefix_spec.
      destruct (split_first_is_prefix sep t) as [r' Hr'].
      apply not_true_iff_false in Hp. apply Hp, prefix_spec.
      exists (r +:+ r'). rewrite <- string_app_assoc, <- Hr, string_app_cons.
      by rewrite <- Hr'.
Qed.

Lemma string_app_eq_app (a b c d : string) :
  a +:+ b = c +:+ d →
  (∃ k, a = c +:+ k ∧ d = k +:+ b) ∨ (∃ k, c = a +:+ k ∧ b = k +:+ d).
Proof.
  revert c. induction a as [|x a IH]; intros c H.
  - right. exists c. by rewrite !string_app_nil_l in *.
  - destruct c as [|y c].
    + left. exists (String x a). by rewrite !string_app_nil_l in *.
    + rewrite !string_app_cons in H. injection H as -> H.
      destruct (IH c H) as [(k & -> & ->)|(k & -> & ->)].
      * left. exists k. by rewrite string_app_cons.
      * right. exists k. by rewrite string_app_cons.
Qed.

(** The separator starts with a unit that occurs nowhere else in it, so
    no occurrence of it can begin before a place where it is written and
    reach into it. *)
Lemma split_first_at_separator c sep' base x :
  Text.includes sep' (String c "") = false →
  Text.includes base (String c sep') = false →
  Text.split_first (String c sep') (base +:+ (String c sep' +:+ x)) = base.
Proof.
  intros Hc. induction base as [|a b IH]; intros Hbase.
  - rewrite string_app_nil_l, string_app_cons, split_first_cons.
    assert (String.prefix (String c sep') (String c (sep' +:+ x)) = true) as ->; [|done].
    apply prefix_spec. exists x. by rewrite string_app_cons.
  - rewrite includes_cons in Hbase. apply orb_false_iff in Hbase as [Hp Hb].
    rewrite string_app_cons, split_first_cons.
    assert (String.prefix (String c sep') (String a (b +:+ (String c sep' +:+ x))) = false)
      as ->; [|by rewrite IH].
    apply not_true_iff_false. intros [r Hr]%prefix_spec.
    rewrite string_app_cons in Hr. injection Hr as -> Hr.
    apply not_true_iff_false in Hp. apply Hp, prefix_spec.
    destruct (string_app_eq_app _ _ _ _ Hr) as [(k & -> & _)|(k & -> & Hk)].
    + exists k. by rewrite string_app_cons.
    + destruct k as [|y k].
      * exists ""%string. by rewrite string_app_cons, !string_app_nil_r.
      * rewrite !string_app_cons in Hk. injection Hk as <- _.
        apply not_true_iff_false in Hc. exfalso. apply Hc, includes_spec.
        exists b, k. by rewrite string_app_cons, string_app_nil_l.
Qed.

Lemma split_first_at_bullet base x :
  Text.includes base Sockets.separator = false →
  Text.split_first Sockets.separator (base +:+ (Sockets.separator +:+ x)) = base.
Proof.
  intros H. unfold Sockets.separator in *.
  apply split_first_at_separator; [reflexivity|exact H].
Qed.

Lemma bullet_tail ms :
  (" • " +:+ ms +:+ "ms response")%string
  = Sockets.separator +:+ (" " +:+ ms +:+ "ms response").
Proof. reflexivity. Qed.

(** X7: a status update overwrites the response time of a card instead of
    piling it up: the text it writes is what stood before the first " •"
    of the old text, followed by " • ", the new time and "ms response";
    that head holds no " •" and is the head of the new text too, so two
    updates in a row write the text the second alone writes, with the
    second time in it and the first gone; an update without a response
    time leaves the text as it is. *)
Theorem X7_status_update_overwrites (ms1 ms2 : string) (text : string) :
  Sockets.status_update_text (Some ms2) text
  = Text.split_first Sockets.separator text +:+ (" • " +:+ ms2 +:+ "ms response")
  ∧ Sockets.status_update_text (Some ms2) (Sockets.status_update_text (Some ms1) text)
    = Text.split_first Sockets.separator text +:+ (" • " +:+ ms2 +:+ "ms response")
  ∧ Text.split_first Sockets.separator (Sockets.status_update_text (Some ms1) text)
    = Text.split_first Sockets.separator text
  ∧ Text.includes (Text.split_first Sockets.separator text) Sockets.separator = false
  ∧ Sockets.status_update_text None text = text.
Proof.
  assert (Hhead : ∀ ms,
    Text.split_first Sockets.separator (Sockets.status_update_text (Some ms) text)
    = Text.split_first Sockets.separator text).
  { intros ms. cbn [Sockets.status_update_text]. rewrite bullet_tail.
    apply split_first_at_bullet. by apply split_first_no_occurrence. }
  split_and!.
  - done.
  - change (Sockets.status_update_text (Some ms2) ?t)
      with (Text.split_first Sockets.separator t +:+ (" • " +:+ ms2 +:+ "ms response")).
    f_equal. apply (Hhead ms1).
  - apply Hhead.
  - by apply split_first_no_occurrence.
  - done.
Qed.

Lemma ascii_only_app (a b : string) :
  ascii_only (a +:+ b) = ascii_only a && ascii_only b.
Proof.
  induction a as [|x a IH]; [done|].
  rewrite string_app_cons. cbn [ascii_only]. by rewrite IH, andb_assoc.
Qed.

Lemma ascii_only_no_bullet (s : string) :
  ascii_only s = true → Text.includes s Sockets.separator = false.
Proof.
  intros Hs. apply not_true_iff_false. intros (a & b & ->)%includes_spec.
  rewrite !ascii_only_app in Hs. apply andb_true_iff in Hs as [_ Hs].
  apply andb_true_iff in Hs as [Hs _]. discriminate Hs.
Qed.

Lemma split_first_without_separator sep t :
  Text.includes t sep = false → Text.split_first sep t = t.
Proof.
  induction t as [|a t IH]; intros H.
  - apply split_first_nil.
  - rewrite includes_cons in H. apply orb_false_iff in H as [Hp Ht].
    by rewrite split_first_cons, Hp, IH.
Qed.

(** X8: a status update replaces the response time that a refresh wrote
    and keeps its report count: when the printed count is plain ASCII (as
    every printed number is), updating the text of [refreshDashboard] or
    [dashboard_refresh], with or without a response time in it, gives the
    text a refresh with the new response time would have written. *)
Theorem X8_update_after_refresh (recent_reports ms : string) (before : option string) :
  ascii_only recent_reports = true →
  Sockets.status_update_text (Some ms) (Sockets.reportText recent_reports before)
  = Sockets.reportText recent_reports (Some ms).
Proof.
  intros Hcount.
  assert (Hbase : Text.includes (recent_reports +:+ " reports in last 24h")
                    Sockets.separator = false).
  { apply ascii_only_no_bullet. rewrite ascii_only_app, Hcount. reflexivity. }
  destruct before as [ms0|]; cbn [Sockets.status_update_text Sockets.reportText].
  - f_equal. rewrite bullet_tail. by apply split_first_at_bullet.
  - f_equal. by apply split_first_without_separator.
Qed.

(** The card reads "3 reports in last 24h • 120ms response"; an update
    reports 95 ms. *)
Lemma X8_update_after_refresh_witness :
  Sockets.status_update_text (Some "95") (Sockets.reportText "3" (Some "120"))
  = Sockets.reportText "3" (Some "95").
Proof. apply (X8_update_after_refresh "3" "95" (Some "120")). reflexivity. Defined.

(** ** admin.js: the status badge and the pagination *)

(** X9: the badge of the admin table and the status text of the dashboard
    name a status alike exactly on the three statuses of the enum: for
    [up], [issues] and [down] both say Operational, Issues and Down, and
    for every other value the admin badge says Down ([bg-danger]) where the
    dashboard says Operational. *)
Theorem X9_badge_and_status_text (s : JS.service) :
  (Admin.textContent (Admin.new_report_badge (JS.status s))
   = JS.statusLabel (JS.refreshDashboard_statusText s)
   ↔ JS.status s = JS.JSString "up"
     ∨ JS.status s = JS.JSString "issues"
     ∨ JS.status s = JS.JSString "down")
  ∧ (JS.status s ≠ JS.JSString "up" → JS.status s ≠ JS.JSString "issues" →
     Admin.new_report_badge (JS.status s)
     = {| Admin.className := "badge bg-danger"; Admin.textContent := "Down" |})
  ∧ (JS.status s = JS.JSString "up" →
     Admin.new_report_badge (JS.status s)
     = {| Admin.className := "badge bg-success"; Admin.textContent := "Operational" |}).
Proof.
  unfold Admin.new_report_badge, JS.refreshDashboard_statusText.
  destruct (JS.strict_equals (JS.status s) "up") eqn:Hu;
    [|destruct (JS.strict_equals (JS.status s) "issues") eqn:Hi;
      [|destruct (JS.strict_equals (JS.status s) "down") eqn:Hd]].
  - apply strict_equals_true in Hu. rewrite Hu. cbn. split_and!; [|done..]. split; auto.
  - apply strict_equals_true in Hi. rewrite Hi. cbn. split_and!; [|done..]. split; auto.
  - apply strict_equals_true in Hd. rewrite Hd. cbn. split_and!; [|done..]. split; auto.
  - apply strict_equals_false in Hu, Hi, Hd. cbn. split_and!; [|done..].
    split; [discriminate|]. intros [?|[?|?]]; done.
Qed.

Lemma listedPages_pageItem p (l : list Z) :
  Admin.listedPages (Admin.pageItem p <$> l) = l.
Proof.
  induction l as [|i l IH]; [done|].
  cbn [fmap list_fmap]. unfold Admin.listedPages in *. cbn [omap list_omap].
  unfold Admin.pageItem at 1. case_bool_decide; simpl; by rewrite IH.
Qed.



Lemma activePages_pageItem p (l : list Z) :
  Admin.activePages (Admin.pageItem p <$> l)
  = List.filter (λ i, bool_decide (i = Admin.page p)) l.
Proof.
  induction l as [|i l IH]; [done|].
  cbn [fmap list_fmap List.filter]. unfold Admin.activePages in *. cbn [omap list_omap].
  unfold Admin.pageItem at 1. case_bool_decide; simpl; by rewrite IH.
Qed.

Lemma filter_eq_NoDup (c : Z) (l : list Z) :
  NoDup l →
  List.filter (λ i, bool_decide (i = c)) l = if bool_decide (c ∈ l) then [c] else [].
Proof.
  induction 1 as [|x l Hx Hl IH]; [done|]. cbn [List.filter]. rewrite IH.
  destruct (decide (x = c)) as [->|Hxc].
  - rewrite (bool_decide_eq_true_2 (c = c)) by done.
    rewrite (bool_decide_eq_false_2 _ Hx).
    rewrite bool_decide_eq_true_2; [done|by left].
  - rewrite (bool_decide_eq_false_2 (x = c)) by done.
    destruct (decide (c ∈ l)) as [Hc|Hc].
    + rewrite (bool_decide_eq_true_2 _ Hc).
      rewrite bool_decide_eq_true_2; [done|by right].
    + rewrite (bool_decide_eq_false_2 _ Hc).
      rewrite bool_decide_eq_false_2; [done|].
      intros [->|?]%elem_of_cons; done.
Qed.

Lemma pageNumbers_elem p i :
  i ∈ Admin.pageNumbers p
  ↔ (1 ≤ i ≤ Admin.pages p) ∧ (Admin.page p - 2 ≤ i ≤ Admin.page p + 2).
Proof.
  unfold Admin.pageNumbers, Admin.startPage, Admin.endPage.
  rewrite elem_of_seqZ. lia.
Qed.


(** X11: [renderPagination] marks a page as active exactly when the
    current page exists: for [1 <= page <= pages] the one active item is
    the current page, and when the current page lies outside that range
    (an empty result, a page past the end) no item is active. *)
Theorem X11_pagination_active (p : Admin.pagination) :
  Admin.activePages (Admin.pageItem p <$> Admin.pageNumbers p)
  = (if bool_decide (1 ≤ Admin.page p ≤ Admin.pages p) then [Admin.page p] else [])
  ∧ (∀ i, Admin.PageActive i ∈ (Admin.pageItem p <$> Admin.pageNumbers p) →
          i = Admin.page p)
  ∧ (∀ i, Admin.PageLink i ∈ (Admin.pageItem p <$> Admin.pageNumbers p) →
          i ≠ Admin.page p).
Proof.
  split_and!.
  - rewrite activePages_pageItem, filter_eq_NoDup by apply NoDup_seqZ.
    case_bool_decide as Hin; case_bool_decide as Hrange; try done.
    + apply pageNumbers_elem in Hin. lia.
    + exfalso. apply Hin, pageNumbers_elem. lia.
  - intros i (j & Hj & _)%list_elem_of_fmap. unfold Admin.pageItem in Hj.
    case_bool_decide; by simplify_eq.
  - intros i (j & Hj & _)%list_elem_of_fmap. unfold Admin.pageItem in Hj.
    case_bool_decide; by simplify_eq.
Qed.

(** ** The detail page: markers and the captured location *)

Lemma markerFor_isMarker r l : Detail.markerFor r = Some l → Detail.isMarker l = true.
Proof.
  unfold Detail.markerFor. destruct (Detail.latitude r), (Detail.longitude r); try done.
  destruct (_ && _); [|done]. by intros [= <-].
Qed.

Lemma filter_no_markers_omap (reports : list Detail.report) :
  List.filter (λ l, negb (Detail.isMarker l)) (omap Detail.markerFor reports) = [].
Proof.
  induction reports as [|r reports IH]; [done|]. cbn [omap list_omap].
  destruct (Detail.markerFor r) as [l|] eqn:Hr; [|exact IH].
  cbn [List.filter]. by rewrite (markerFor_isMarker _ _ Hr).
Qed.

Lemma filter_markers_omap (reports : list Detail.report) :
  List.filter Detail.isMarker (omap Detail.markerFor reports)
  = omap Detail.markerFor reports.
Proof.
  induction reports as [|r reports IH]; [done|]. cbn [omap list_omap].
  destruct (Detail.markerFor r) as [l|] eqn:Hr; [|exact IH].
  cbn [List.filter]. by rewrite (markerFor_isMarker _ _ Hr), IH.
Qed.

Lemma filter_filter_same {A} (p : A → bool) (l : list A) :
  List.filter p (List.filter p l) = List.filter p l.
Proof.
  induction l as [|x l IH]; [done|]. cbn [List.filter].
  destruct (p x) eqn:Hp; [|done]. cbn [List.filter]. by rewrite Hp, IH.
Qed.

Lemma filter_markers_of_others (map : list Detail.layer) :
  List.filter Detail.isMarker (List.filter (λ l, negb (Detail.isMarker l)) map) = [].
Proof.
  induction map as [|l map IH]; [done|]. cbn [List.filter].
  destruct (Detail.isMarker l) eqn:Hl; [done|]. cbn [negb List.filter]. by rewrite Hl.
Qed.

Lemma omap_length_le {A B} (f : A → option B) (l : list A) :
  (length (omap f l) ≤ length l)%nat.
Proof.
  induction l as [|x l IH]; [done|]. cbn [omap list_omap].
  destruct (f x); simpl; lia.
Qed.

(** X12: after [loadReports] the map carries exactly the markers of the
    reports just read, in their order, whatever markers it carried before
    (a refresh never piles markers up, and reading the same reports again
    changes nothing), and the layers that are no markers stay.  A report
    gets a marker only when both coordinates are present and neither is 0:
    a report on the equator or on the prime meridian gets none. *)
Theorem X12_markers_follow_reports
    (reports earlier : list Detail.report) (map : list Detail.layer) :
  List.filter Detail.isMarker (Detail.loadReports_map reports map)
  = omap Detail.markerFor reports
  ∧ List.filter (λ l, negb (Detail.isMarker l)) (Detail.loadReports_map reports map)
    = List.filter (λ l, negb (Detail.isMarker l)) map
  ∧ Detail.loadReports_map reports (Detail.loadReports_map earlier map)
    = Detail.loadReports_map reports map
  ∧ (length (omap Detail.markerFor reports) ≤ length reports)%nat
  ∧ (∀ r, is_Some (Detail.markerFor r)
          ↔ ∃ lat lon, Detail.latitude r = Detail.Degrees lat
                       ∧ Detail.longitude r = Detail.Degrees lon
                       ∧ ¬ Qeq lat 0 ∧ ¬ Qeq lon 0)
  ∧ (∀ r lat lon, Detail.markerFor r = Some (Detail.Marker lat lon) →
                  Detail.latitude r = Detail.Degrees lat
                  ∧ Detail.longitude r = Detail.Degrees lon).
Proof.
  assert (Hothers : ∀ rs m,
    List.filter (λ l, negb (Detail.isMarker l)) (Detail.loadReports_map rs m)
    = List.filter (λ l, negb (Detail.isMarker l)) m).
  { intros rs m. unfold Detail.loadReports_map.
    by rewrite List.filter_app, filter_filter_same, filter_no_markers_omap, app_nil_r. }
  split_and!.
  - unfold Detail.loadReports_map.
    by rewrite List.filter_app, filter_markers_of_others, filter_markers_omap.
  - apply Hothers.
  - unfold Detail.loadReports_map at 1. rewrite Hothers. reflexivity.
  - apply omap_length_le.
  - intros r. unfold Detail.markerFor, Detail.truthy.
    destruct (Detail.latitude r) as [|lat], (Detail.longitude r) as [|lon].
    + split; [by intros [? ?]|]. by intros (? & ? & ? & _).
    + split; [by intros [? ?]|]. by intros (? & ? & ? & _).
    + split; [by intros [? ?]|]. by intros (? & ? & _ & ? & _).
    + destruct (Qeq_bool lat 0) eqn:Hlat; [|destruct (Qeq_bool lon 0) eqn:Hlon]; simpl.
      * apply Qeq_bool_iff in Hlat. split; [by intros [? ?]|].
        intros (? & ? & [= <-] & _ & Hn & _). done.
      * apply Qeq_bool_iff in Hlon. split; [by intros [? ?]|].
        intros (? & ? & _ & [= <-] & _ & Hn). done.
      * split; [|by eauto]. intros _. exists lat, lon. split_and!; try done.
        -- intros H. apply Qeq_bool_iff in H. congruence.
        -- intros H. apply Qeq_bool_iff in H. congruence.
  - intros r lat lon. unfold Detail.markerFor.
    destruct (Detail.latitude r) as [|lat'], (Detail.longitude r) as [|lon']; try done.
    destruct (_ && _); [|done]. by intros [= -> ->].
Qed.

Lemma happens_paired h c : paired c → paired (Detail.happens h c).
Proof. unfold paired. destruct h; simpl; try done. Qed.

Lemma fold_happens_paired hs c :
  paired c → paired (fold_left (λ c h, Detail.happens h c) hs c).
Proof.
  revert c. induction hs as [|h hs IH]; intros c Hc; [done|].
  cbn [fold_left]. by apply IH, happens_paired.
Qed.

(** X13: the report form never sends half a position: whatever positions
    were found, whichever lookups failed and however earlier submissions
    ended, [formData] carries both coordinates or neither.  A successful
    submission clears the captured position, so the next report carries
    none unless a position is found again; a failed submission and a
    failed lookup keep what was captured. *)
Theorem X13_coordinates_come_in_pairs (hs : list Detail.happening) :
  (fst (Detail.formData_coordinates (Detail.after hs)) = Detail.NoCoordinate
   ↔ snd (Detail.formData_coordinates (Detail.after hs)) = Detail.NoCoordinate)
  ∧ Detail.formData_coordinates (Detail.after (hs ++ [Detail.SubmitOk]))
    = (Detail.NoCoordinate, Detail.NoCoordinate)
  ∧ Detail.after (hs ++ [Detail.SubmitFailed]) = Detail.after hs
  ∧ Detail.after (hs ++ [Detail.PositionError]) = Detail.after hs
  ∧ (∀ lat lon,
       Detail.formData_coordinates (Detail.after (hs ++ [Detail.PositionFound lat lon]))
       = (Detail.Degrees lat, Detail.Degrees lon)).
Proof.
  unfold Detail.after. split_and!.
  - apply (fold_happens_paired hs Detail.page_loaded). done.
  - by rewrite fold_left_app.
  - by rewrite fold_left_app.
  - by rewrite fold_left_app.
  - intros lat lon. by rewrite fold_left_app.
Qed.

(** ** The databases the schema's statements lead to *)

Lemma db_at_exec_list l t d d' :
  db_at t d → Schema.exec_list l d = Some d' → db_at (end_time t l) d'.
Proof.
  revert t d. induction l as [|[now s] l IH]; intros t d Hd Hexec.
  - injection Hexec as <-. exact Hd.
  - cbn [Schema.exec_list] in Hexec.
    destruct (Schema.exec now s d) as [d1|] eqn:H1; [|discriminate].
    cbn [end_time]. apply (IH now d1); [|done].
    by apply (db_at_exec t now s d d1).
Qed.

Lemma db_at_db_with_report : db_at 3000 db_with_report.
Proof.
  apply (db_at_exec_list report_statements 0 Schema.initial db_with_report).
  - apply db_at_initial.
  - vm_compute. reflexivity.
Qed.

Lemma exec_references now s d d' :
  Schema.exec now s d = Some d' → references_hold d → references_hold d'.
Proof.
  intros Hexec Hd r. destruct s as [|ty nm u|v|key|key|key new|key]; simpl in Hexec.
  - injection Hexec as <-. simpl. intros Hr. destruct (Hd r Hr) as [Hs Hu].
    split; [done|]. intros u ?. apply elem_of_union. right. by apply Hu.
  - destruct (decide (ty ∈ Schema.service_types d)); [|discriminate].
    injection Hexec as <-. simpl. intros Hr. destruct (Hd r Hr) as [Hs Hu].
    split; [|done]. apply lookup_insert_is_Some'. by right.
  - destruct (bool_decide _ && _ && _) eqn:Hguard; [|discriminate].
    apply andb_true_iff in Hguard as [Hguard _].
    apply andb_true_iff in Hguard as [Hsvc Husr]. apply bool_decide_eq_true in Hsvc.
    injection Hexec as <-. simpl. intros [Hr|Hr]%elem_of_app.
    + by apply Hd.
    + apply list_elem_of_singleton in Hr as ->. simpl. split; [done|].
      intros u Hu. rewrite Hu in Husr. simpl in Husr. by apply bool_decide_eq_true in Husr.
  - injection Hexec as <-. simpl.
    intros (r0 & -> & Hr0)%list_elem_of_fmap. destruct (Hd r0 Hr0) as [Hs Hu].
    rewrite on_delete_user_service_id. split; [done|].
    intros u [Hu0 Hne]%on_delete_user_user_id.
    apply elem_of_difference. split; [by apply Hu|]. by intros ?%elem_of_singleton.
  - injection Hexec as <-. simpl.
    intros [Hne Hr]%list_elem_of_filter. destruct (Hd r Hr) as [Hs Hu].
    split; [|done]. by rewrite lookup_delete_ne.
  - destruct (bool_decide (key ∈ Schema.report_keys d)); [|by injection Hexec as <-; apply Hd].
    destruct (bool_decide _ && _ && _) eqn:Hguard; [|discriminate].
    apply andb_true_iff in Hguard as [Hguard _].
    apply andb_true_iff in Hguard as [Hsvc Husr]. apply bool_decide_eq_true in Hsvc.
    injection Hexec as <-. simpl.
    intros (r0 & -> & Hr0)%list_elem_of_fmap.
    unfold Schema.OutageReports.on_update. case_decide as Hid; [|by apply Hd].
    simpl. split; [done|].
    intros u Hu. rewrite Hu in Husr. simpl in Husr. by apply bool_decide_eq_true in Husr.
  - injection Hexec as <-. simpl.
    intros [_ Hr]%list_elem_of_filter. by apply Hd.
Qed.

Lemma rejected_references s d : references_hold d → references_hold (Schema.rejected s d).
Proof. intros Hd. by destruct s. Qed.

(** X14: the statements of the schema never leave a dangling reference:
    in every database they lead to, each stored report belongs to a
    service that is stored and, when it names a user, to a user that is
    stored.  An insert or update that would break this is rejected, the
    deletion of a service takes its reports along and the deletion of a
    user clears [user_id] in that user's reports. *)
Theorem X14_references_hold (t : Z) (d : Schema.db) :
  db_at t d → references_hold d.
Proof.
  induction 1 as [t|t now s d d' _ IH Hexec|t now s d _ IH _].
  - intros r Hr. simpl in Hr. by apply elem_of_nil in Hr.
  - by apply (exec_references now s d d').
  - by apply rejected_references.
Qed.

(** The stored report of [db_with_report] names service 1 and user 1,
    both stored. *)
Lemma X14_references_hold_witness : references_hold db_with_report.
Proof. exact (X14_references_hold 3000 db_with_report db_at_db_with_report). Defined.

(** ** More on the search and on the statistics *)

Lemma filter_fmap_length {A B} (f : A → B) (p : B → bool) (l : list A) :
  length (List.filter p (f <$> l)) = length (List.filter (λ x, p (f x)) l).
Proof.
  induction l as [|x l IH]; [done|]. cbn [fmap list_fmap List.filter].
  destruct (p (f x)); simpl; by rewrite <- IH.
Qed.

Lemma displayed_after_search query it :
  displayed (Dashboard.hideTimer (Dashboard.performSearch_item query it))
  = Dashboard.shouldShow query it.
Proof.
  unfold Dashboard.performSearch_item, Dashboard.hideTimer, displayed.
  by destruct (Dashboard.shouldShow query it).
Qed.

(** X17: the count of [performSearch] is the count on the screen: once the
    timers of a search have fired, the number of items laid out
    ([display = 'block']) is [visibleCount], however the items were laid
    out before, so the "no services found" message of a non-empty query
    stands exactly over a grid with no item laid out. *)
Theorem X17_visible_count_is_displayed (query : string) (g : Dashboard.grid) :
  length (List.filter displayed
            (Dashboard.hideTimer <$> Dashboard.items (Dashboard.performSearch query g)))
  = Dashboard.visibleCount query (Dashboard.items g)
  ∧ (query ≠ ""%string →
     (Dashboard.noResults (Dashboard.performSearch query g) = Some query
      ↔ List.filter displayed
          (Dashboard.hideTimer <$> Dashboard.items (Dashboard.performSearch query g)) = [])).
Proof.
  assert (Hlen : length (List.filter displayed
            (Dashboard.hideTimer <$> Dashboard.items (Dashboard.performSearch query g)))
          = Dashboard.visibleCount query (Dashboard.items g)).
  { cbn [Dashboard.performSearch Dashboard.items]. rewrite <- list_fmap_compose.
    rewrite filter_fmap_length. unfold Dashboard.visibleCount.
    apply filter_ext_length. intros it. apply displayed_after_search. }
  split; [exact Hlen|]. intros Hq.
  cbn [Dashboard.performSearch Dashboard.noResults].
  rewrite (proj2 (String.eqb_neq query "") Hq), andb_true_r.
  rewrite <- Hlen. cbn [Dashboard.performSearch Dashboard.items].
  destruct (List.filter displayed _) as [|x l]; simpl; split; done.
Qed.

(** One item, named "gmail", under the query "zzz". *)
Lemma X17_visible_count_is_displayed_witness :
  Dashboard.noResults
    (Dashboard.performSearch "zzz"
       {| Dashboard.items := [ Dashboard.Build_item (Some "gmail") "block" "1" ];
          Dashboard.noResults := None |}) = Some "zzz"%string
  ↔ List.filter displayed
      (Dashboard.hideTimer <$>
         Dashboard.items
           (Dashboard.performSearch "zzz"
              {| Dashboard.items := [ Dashboard.Build_item (Some "gmail") "block" "1" ];
                 Dashboard.noResults := None |})) = [].
Proof.
  apply (proj2 (X17_visible_count_is_displayed "zzz"
                  {| Dashboard.items := [ Dashboard.Build_item (Some "gmail") "block" "1" ];
                     Dashboard.noResults := None |})).
  discriminate.
Defined.

Lemma Date_ge_parsed r d : JS.Date_ge (JS.timestamp r) d = true → parsed r = true.
Proof. unfold parsed. by destruct (JS.timestamp r). Qed.

(** X18: a report whose timestamp does not parse weighs on the 24-hour
    counter only: the 1-hour and the 6-hour counters of [loadStatistics]
    never exceed the number of reports with a parsed timestamp, while the
    24-hour counter is the number of all reports of the response; so a
    response of unparsed reports alone shows 0, 0 and its length. *)
Theorem X18_unparsed_reports (page : JS.statistics) (reports : list JS.report) (now : Z) :
  (JS.lastHourCount (JS.loadStatistics page (Some reports) now)
   ≤ length (List.filter parsed reports))%nat
  ∧ (JS.last6HourCount (JS.loadStatistics page (Some reports) now)
     ≤ length (List.filter parsed reports))%nat
  ∧ JS.last24HourCount (JS.loadStatistics page (Some reports) now) = length reports
  ∧ ((∀ r, r ∈ reports → parsed r = false) →
     JS.loadStatistics page (Some reports) now
     = {| JS.lastHourCount := 0; JS.last6HourCount := 0;
          JS.last24HourCount := length reports |}).
Proof.
  assert (H1 : (JS.lastHour reports now ≤ length (List.filter parsed reports))%nat).
  { apply filter_length_mono. intros r. apply Date_ge_parsed. }
  assert (H6 : (JS.last6Hours reports now ≤ length (List.filter parsed reports))%nat).
  { apply filter_length_mono. intros r. apply Date_ge_parsed. }
  cbn [JS.loadStatistics JS.lastHourCount JS.last6HourCount JS.last24HourCount].
  split_and!; [exact H1|exact H6|done|].
  intros Hnone.
  assert (Hp : length (List.filter parsed reports) = 0%nat) by (by apply filter_length_none).
  f_equal; [lia|lia].
Qed.
